(** * ListenerManager: the listening topology of a drogon process

    A shallow embedding of [lib/src/ListenerManager.{h,cc}].  The manager
    keeps the declared listeners, realizes them as [HttpServer] instances
    over the worker event loops ([createListeners]) and drives their life
    cycle.  Calls into trantor and into the application singleton are
    recorded as a trace of events; [abort()], [exit(1)] and a failed
    [assert] end the run with a [fatal] result that keeps the manager as
    it was at that moment. *)

From Stdlib Require Import String Ascii List Bool Arith ZArith NArith Lia.
Import ListNotations.
Local Open Scope string_scope.
Local Open Scope list_scope.

(** ** Collaborators *)

(** [trantor::EventLoop *]: a loop is known by its identity only. *)
Definition EventLoop := nat.

(** [std::function<...>]: a callable is known by its identity; the empty
    function object is [None]. *)
Definition SockOptCallback := option nat.
Definition ConnectionCallback := option nat.

Definition ConfCmds := list (string * string).

(** [trantor::InetAddress]: the literal and port it was built from, the
    family that was tried, and whether the address is still unspecified. *)
Record InetAddress := mkInetAddress {
  toIp : string;
  toPort : N;
  isIpV6 : bool;
  isUnspecified : bool
}.

(** [trantor::TLSPolicy] as [defaultServerPolicy] and its setters fill it. *)
Record TLSPolicy := mkTLSPolicy {
  certPath : string;
  keyPath : string;
  confCmds : ConfCmds;
  useOldTLS : bool
}.

(** [drogon::HttpServer]: what the manager hands to it. *)
Record HttpServer := mkHttpServer {
  srv_loop : EventLoop;
  srv_address : InetAddress;
  srv_name : string;
  srv_beforeListenSockOpt : SockOptCallback;
  srv_afterAcceptSockOpt : SockOptCallback;
  srv_connectionCallback : ConnectionCallback;
  srv_sslPolicy : option TLSPolicy;
  srv_ioLoops : list EventLoop
}.

(** [trantor::EventLoopThread]. *)
Record EventLoopThread := mkEventLoopThread {
  thread_name : string;
  thread_loop : EventLoop
}.

(** What the build and the surrounding process decide for one call: the
    [__linux__] branch of the preprocessor, [utils::supportsTls()],
    [app().reusePort()], the outcome of [inet_pton] for a family ([true]
    is [AF_INET6]) and a literal, whether the throw-away bind of the port
    test succeeds, the loop of the application, the loop owned by the
    listening thread that this call creates, and whether the calling
    thread runs a given loop.  A later call of [createListeners] creates
    another thread with a loop of its own: it is run on another platform,
    whose [listeningLoop] is that loop. *)
Record Platform := mkPlatform {
  is_linux : bool;
  supportsTls : bool;
  reusePort : bool;
  inet_pton : bool -> string -> bool;
  bindSucceeds : InetAddress -> bool;
  appLoop : EventLoop;
  listeningLoop : EventLoop;
  isInLoopThread : EventLoop -> bool
}.

(** ** The manager *)

Record ListenerInfo := mkListenerInfo {
  ip_ : string;
  port_ : N;
  useSSL_ : bool;
  certFile_ : string;
  keyFile_ : string;
  useOldTLS_ : bool;
  sslConfCmds_ : ConfCmds
}.

Record ListenerManager := mkListenerManager {
  listeners_ : list ListenerInfo;
  servers_ : list HttpServer;
  listeningThread_ : option EventLoopThread;
  beforeListenSetSockOptCallback_ : SockOptCallback;
  afterAcceptSetSockOptCallback_ : SockOptCallback;
  connectionCallback_ : ConnectionCallback
}.

(** A default-constructed manager. *)
Definition newListenerManager : ListenerManager :=
  mkListenerManager [] [] None None None None.

(** ** Effects *)

Inductive event :=
| LogTrace (msg : string) (n : nat)
| LogError (msg : string)
| LogFatal (msg : string)
| FileLock (path : string) (exclusive : bool)
| FileUnlock
| NewTcpServer (loop : EventLoop) (addr : InetAddress) (name : string)
    (reUseAddr reUsePort : bool)
| DeleteTcpServer
| NewHttpServer (loop : EventLoop) (addr : InetAddress) (name : string)
| Stderr (msg : string)
| ThreadRun (name : string)
| ServerStop (s : HttpServer)
| LoopQuit (loop : EventLoop)
| ThreadWait (t : EventLoopThread).

Inductive fatal :=
| Abort
| Exit (status : Z)
| BindFailed
| AssertFailed.

Inductive result (A : Type) :=
| Ok (a : A)
| Fatal (f : fatal).

Arguments Ok {A} a.
Arguments Fatal {A} f.

(** A computation reads and updates the manager, emits events, and either
    yields a value or ends the process. *)
Definition M (A : Type) : Type :=
  ListenerManager -> result A * ListenerManager * list event.

Definition ret {A} (a : A) : M A := fun m => (Ok a, m, []).

Definition bind {A B} (c : M A) (k : A -> M B) : M B :=
  fun m =>
    match c m with
    | (Ok a, m1, t1) =>
        match k a m1 with
        | (r, m2, t2) => (r, m2, t1 ++ t2)
        end
    | (Fatal f, m1, t1) => (Fatal f, m1, t1)
    end.

Definition emit (e : event) : M unit := fun m => (Ok tt, m, [e]).
Definition die {A} (f : fatal) : M A := fun m => (Fatal f, m, []).
Definition get : M ListenerManager := fun m => (Ok m, m, []).

Notation "x <- c ;; k" := (bind c (fun x => k))
  (at level 61, c at next level, right associativity).
Notation "c ;;; k" := (bind c (fun _ => k))
  (at level 61, right associativity).

(** Range-based [for] over a vector. *)
Fixpoint forEach {A} (l : list A) (body : A -> M unit) : M unit :=
  match l with
  | [] => ret tt
  | x :: l' => body x ;;; forEach l' body
  end.

(** [for (size_t i = i0; i < v.size(); ++i)] reading [v[i]]; [l] is the
    part of the vector from index [i0] on. *)
Fixpoint forIndexed {A} (i : nat) (l : list A) (body : nat -> A -> M unit)
  : M unit :=
  match l with
  | [] => ret tt
  | x :: l' => body i x ;;; forIndexed (S i) l' body
  end.

(** Observations of a finished run. *)
Definition outcome {A} (r : result A * ListenerManager * list event)
  : result A := fst (fst r).
Definition final {A} (r : result A * ListenerManager * list event)
  : ListenerManager := snd (fst r).
Definition trace {A} (r : result A * ListenerManager * list event)
  : list event := snd r.

(** ** Strings *)

(** [s.empty()]. *)
Definition empty (s : string) : bool :=
  match s with
  | EmptyString => true
  | String _ _ => false
  end.

(** [s.find(c) != std::string::npos]. *)
Fixpoint contains (c : ascii) (s : string) : bool :=
  match s with
  | EmptyString => false
  | String a s' => Ascii.eqb a c || contains c s'
  end.

(** ** Collaborator calls *)

(** Modelled from the spec: the constructor [InetAddress(ip, port, ipv6)]
    of trantor, which parses the literal as IPv6 or as IPv4 as it is told;
    an address that fails to parse to a concrete numeric address stays
    unspecified. *)
Definition InetAddress_of (P : Platform) (ip : string) (port : N)
  (ipv6 : bool) : InetAddress :=
  mkInetAddress ip port ipv6 (negb (inet_pton P ipv6 ip)).

(** Modelled from the spec: the constructor of [trantor::TcpServer] binds
    the address; if the bind fails the address is taken to be in use
    already and the process ends there.  The two flags are [reUseAddr] and
    [reUsePort]. *)
Definition TcpServer_new (P : Platform) (loop : EventLoop)
  (addr : InetAddress) (name : string) (reUseAddr reUsePort : bool)
  : M unit :=
  emit (NewTcpServer loop addr name reUseAddr reUsePort) ;;;
  if bindSucceeds P addr then ret tt else die BindFailed.

Definition TcpServer_delete : M unit := emit DeleteTcpServer.

(** [HttpServer(loop, addr, name)] and its setters: an instance records
    what the manager hands to it.  Creating and binding its socket is the
    business of the collaborator and is not followed here. *)
Definition HttpServer_new (loop : EventLoop) (addr : InetAddress)
  (name : string) : HttpServer :=
  mkHttpServer loop addr name None None None None [].

Definition setBeforeListenSockOptCallback_srv (cb : SockOptCallback)
  (s : HttpServer) : HttpServer :=
  mkHttpServer (srv_loop s) (srv_address s) (srv_name s) cb
    (srv_afterAcceptSockOpt s) (srv_connectionCallback s)
    (srv_sslPolicy s) (srv_ioLoops s).

Definition setAfterAcceptSockOptCallback_srv (cb : SockOptCallback)
  (s : HttpServer) : HttpServer :=
  mkHttpServer (srv_loop s) (srv_address s) (srv_name s)
    (srv_beforeListenSockOpt s) cb (srv_connectionCallback s)
    (srv_sslPolicy s) (srv_ioLoops s).

Definition setConnectionCallback_srv (cb : ConnectionCallback)
  (s : HttpServer) : HttpServer :=
  mkHttpServer (srv_loop s) (srv_address s) (srv_name s)
    (srv_beforeListenSockOpt s) (srv_afterAcceptSockOpt s) cb
    (srv_sslPolicy s) (srv_ioLoops s).

Definition enableSSL (p : TLSPolicy) (s : HttpServer) : HttpServer :=
  mkHttpServer (srv_loop s) (srv_address s) (srv_name s)
    (srv_beforeListenSockOpt s) (srv_afterAcceptSockOpt s)
    (srv_connectionCallback s) (Some p) (srv_ioLoops s).

Definition setIoLoops (loops : list EventLoop) (s : HttpServer)
  : HttpServer :=
  mkHttpServer (srv_loop s) (srv_address s) (srv_name s)
    (srv_beforeListenSockOpt s) (srv_afterAcceptSockOpt s)
    (srv_connectionCallback s) (srv_sslPolicy s) loops.

(** [TLSPolicy::defaultServerPolicy(cert, key)] followed by
    [setConfCmds(cmds).setUseOldTLS(old)]. *)
Definition defaultServerPolicy (cert key : string) : TLSPolicy :=
  mkTLSPolicy cert key [] false.
Definition setConfCmds (cmds : ConfCmds) (p : TLSPolicy) : TLSPolicy :=
  mkTLSPolicy (certPath p) (keyPath p) cmds (useOldTLS p).
Definition setUseOldTLS (old : bool) (p : TLSPolicy) : TLSPolicy :=
  mkTLSPolicy (certPath p) (keyPath p) (confCmds p) old.

(** ** Member updates *)

Definition listeners_emplace_back (l : ListenerInfo) : M unit :=
  fun m =>
    (Ok tt,
     mkListenerManager (listeners_ m ++ [l]) (servers_ m)
       (listeningThread_ m) (beforeListenSetSockOptCallback_ m)
       (afterAcceptSetSockOptCallback_ m) (connectionCallback_ m),
     []).

Definition servers_push_back (s : HttpServer) : M unit :=
  fun m =>
    (Ok tt,
     mkListenerManager (listeners_ m) (servers_ m ++ [s])
       (listeningThread_ m) (beforeListenSetSockOptCallback_ m)
       (afterAcceptSetSockOptCallback_ m) (connectionCallback_ m),
     []).

Definition listeningThread_reset (t : EventLoopThread) : M unit :=
  fun m =>
    (Ok tt,
     mkListenerManager (listeners_ m) (servers_ m) (Some t)
       (beforeListenSetSockOptCallback_ m)
       (afterAcceptSetSockOptCallback_ m) (connectionCallback_ m),
     []).

(** The three setters of the header. *)
Definition setBeforeListenSockOptCallback (cb : SockOptCallback) : M unit :=
  fun m =>
    (Ok tt,
     mkListenerManager (listeners_ m) (servers_ m) (listeningThread_ m)
       cb (afterAcceptSetSockOptCallback_ m) (connectionCallback_ m),
     []).

Definition setAfterAcceptSockOptCallback (cb : SockOptCallback) : M unit :=
  fun m =>
    (Ok tt,
     mkListenerManager (listeners_ m) (servers_ m) (listeningThread_ m)
       (beforeListenSetSockOptCallback_ m) cb (connectionCallback_ m),
     []).

Definition setConnectionCallback (cb : ConnectionCallback) : M unit :=
  fun m =>
    (Ok tt,
     mkListenerManager (listeners_ m) (servers_ m) (listeningThread_ m)
       (beforeListenSetSockOptCallback_ m)
       (afterAcceptSetSockOptCallback_ m) cb,
     []).

(** ** Messages *)

Definition msg_no_openssl : string :=
  "Can't use SSL without OpenSSL found in your system".
Definition msg_parse_failed (ip : string) : string :=
  ("Failed to parse IP address '" ++ ip ++
   "'. (Note: FQDN/domain names/hostnames are not supported. Including 'localhost')")%string.
Definition msg_no_cert : string :=
  "You can't use https without cert file or key file".
Definition lock_path : string := "/tmp/drogon.lock".

(** ** ListenerManager.cc *)

(** [ListenerManager::addListener]. *)
Definition addListener (P : Platform) (ip : string) (port : N)
  (useSSL : bool) (certFile keyFile : string) (useOldTLS : bool)
  (sslConfCmds : ConfCmds) : M unit :=
  (if useSSL && negb (supportsTls P)
   then emit (LogError msg_no_openssl)
   else ret tt) ;;;
  listeners_emplace_back
    (mkListenerInfo ip port useSSL certFile keyFile useOldTLS sslConfCmds).

(** [ListenerManager::getListeners]. *)
Definition getListeners (m : ListenerManager) : list InetAddress :=
  map srv_address (servers_ m).

(** [DrogonFileLocker]: the constructor opens the lock file and takes
    [flock(fd_, LOCK_EX)], which blocks until the lock is free; the
    destructor closes the descriptor, which releases the lock. *)
Definition DrogonFileLocker_new : M unit := emit (FileLock lock_path true).
Definition DrogonFileLocker_delete : M unit := emit FileUnlock.

(** The block of lines 105 to 113: the lock is taken, the throw-away
    server is built, and leaving the block destroys the server and then
    the lock. *)
Definition portTest (P : Platform) (listenAddress : InetAddress) : M unit :=
  DrogonFileLocker_new ;;;
  TcpServer_new P (appLoop P) listenAddress "drogonPortTest" true false ;;;
  TcpServer_delete ;;;
  DrogonFileLocker_delete.

(** The body of the inner loop of the [__linux__] branch. *)
Definition linuxListener (P : Platform) (globalCertFile globalKeyFile : string)
  (sslConfCmds : ConfCmds) (i : nat) (ioLoop : EventLoop)
  (listener : ListenerInfo) : M unit :=
  let ip := ip_ listener in
  let isIpv6 := contains ":"%char ip in
  let listenAddress := InetAddress_of P ip (port_ listener) isIpv6 in
  (if isUnspecified listenAddress
   then emit (LogFatal (msg_parse_failed ip)) ;;; die Abort
   else ret tt) ;;;
  (if Nat.eqb i 0 && negb (reusePort P)
   then portTest P listenAddress
   else ret tt) ;;;
  emit (NewHttpServer ioLoop listenAddress "drogon") ;;;
  let serverPtr := HttpServer_new ioLoop listenAddress "drogon" in
  m <- get ;;
  let serverPtr :=
    match beforeListenSetSockOptCallback_ m with
    | Some cb => setBeforeListenSockOptCallback_srv (Some cb) serverPtr
    | None => serverPtr
    end in
  let serverPtr :=
    match afterAcceptSetSockOptCallback_ m with
    | Some cb => setAfterAcceptSockOptCallback_srv (Some cb) serverPtr
    | None => serverPtr
    end in
  let serverPtr :=
    match connectionCallback_ m with
    | Some cb => setConnectionCallback_srv (Some cb) serverPtr
    | None => serverPtr
    end in
  serverPtr <-
    (if useSSL_ listener && supportsTls P
     then
       let cert := certFile_ listener in
       let key := keyFile_ listener in
       let cert := if empty cert then globalCertFile else cert in
       let key := if empty key then globalKeyFile else key in
       (if empty cert || empty key
        then emit (Stderr msg_no_cert) ;;; die (Exit 1)
        else ret tt) ;;;
       let cmds := sslConfCmds ++ sslConfCmds_ listener in
       let policy := defaultServerPolicy cert key in
       let policy := setUseOldTLS (useOldTLS_ listener)
                       (setConfCmds cmds policy) in
       ret (enableSSL policy serverPtr)
     else ret serverPtr) ;;
  servers_push_back serverPtr.

(** The body of the loop of the other branch. *)
Definition otherListener (P : Platform) (globalCertFile globalKeyFile : string)
  (sslConfCmds : ConfCmds) (ioLoops : list EventLoop)
  (listener : ListenerInfo) : M unit :=
  let ip := ip_ listener in
  let isIpv6 := contains ":"%char ip in
  m <- get ;;
  let threadLoop :=
    match listeningThread_ m with
    | Some t => thread_loop t
    | None => 0
    end in
  let listenAddress := InetAddress_of P ip (port_ listener) isIpv6 in
  emit (NewHttpServer threadLoop listenAddress "drogon") ;;;
  let serverPtr := HttpServer_new threadLoop listenAddress "drogon" in
  serverPtr <-
    (if useSSL_ listener && supportsTls P
     then
       let cert := certFile_ listener in
       let key := keyFile_ listener in
       let cert := if empty cert then globalCertFile else cert in
       let key := if empty key then globalKeyFile else key in
       (if empty cert || empty key
        then emit (Stderr msg_no_cert) ;;; die (Exit 1)
        else ret tt) ;;;
       let cmds := sslConfCmds in
       let policy := defaultServerPolicy cert key in
       let policy := setUseOldTLS (useOldTLS_ listener)
                       (setConfCmds cmds policy) in
       ret (enableSSL policy serverPtr)
     else ret serverPtr) ;;
  let serverPtr := setIoLoops ioLoops serverPtr in
  servers_push_back serverPtr.

(** [ListenerManager::createListeners].  The thread of the other branch
    is a new one at every call, with the loop the platform of that call
    names; assigning it to [listeningThread_] drops the thread that was
    there. *)
Definition createListeners (P : Platform) (globalCertFile globalKeyFile : string)
  (sslConfCmds : ConfCmds) (ioLoops : list EventLoop) : M unit :=
  emit (LogTrace "thread num=" (length ioLoops)) ;;;
  if is_linux P then
    forIndexed 0 ioLoops (fun i ioLoop =>
      m <- get ;;
      forEach (listeners_ m)
        (linuxListener P globalCertFile globalKeyFile sslConfCmds i ioLoop))
  else
    m <- get ;;
    match listeners_ m with
    | [] => ret tt
    | _ :: _ =>
        listeningThread_reset
          (mkEventLoopThread "DrogonListeningLoop" (listeningLoop P)) ;;;
        emit (ThreadRun "DrogonListeningLoop") ;;;
        forEach (listeners_ m)
          (otherListener P globalCertFile globalKeyFile sslConfCmds ioLoops)
    end.

(** [ListenerManager::stopListening].  [ndebug] tells whether the build
    defines [NDEBUG]: the [assert] is then compiled away, and
    [isInLoopThread] is not even asked. *)
Definition stopListening (P : Platform) (ndebug : bool) : M unit :=
  m <- get ;;
  forEach (servers_ m) (fun serverPtr => emit (ServerStop serverPtr)) ;;;
  match listeningThread_ m with
  | Some t =>
      let loop := thread_loop t in
      (if negb ndebug && isInLoopThread P loop
       then die AssertFailed
       else ret tt) ;;;
      emit (LoopQuit loop) ;;;
      emit (ThreadWait t)
  | None => ret tt
  end.

(** ** Vocabulary for the statements *)

(** The manager with [ss] appended to [servers_]. *)
Definition with_servers (m : ListenerManager) (ss : list HttpServer)
  : ListenerManager :=
  mkListenerManager (listeners_ m) (servers_ m ++ ss) (listeningThread_ m)
    (beforeListenSetSockOptCallback_ m) (afterAcceptSetSockOptCallback_ m)
    (connectionCallback_ m).

(** The manager with its listening thread set. *)
Definition with_thread (m : ListenerManager) (t : EventLoopThread)
  : ListenerManager :=
  mkListenerManager (listeners_ m) (servers_ m) (Some t)
    (beforeListenSetSockOptCallback_ m) (afterAcceptSetSockOptCallback_ m)
    (connectionCallback_ m).

(** The address a declared listener is parsed to. *)
Definition listenAddressOf (P : Platform) (l : ListenerInfo) : InetAddress :=
  InetAddress_of P (ip_ l) (port_ l) (contains ":"%char (ip_ l)).

Definition parseable (P : Platform) (l : ListenerInfo) : bool :=
  negb (isUnspecified (listenAddressOf P l)).

(** The listener asks for TLS and the build has it. *)
Definition wantsTls (P : Platform) (l : ListenerInfo) : bool :=
  useSSL_ l && supportsTls P.

Definition effectiveCert (globalCertFile : string) (l : ListenerInfo)
  : string :=
  if empty (certFile_ l) then globalCertFile else certFile_ l.

Definition effectiveKey (globalKeyFile : string) (l : ListenerInfo)
  : string :=
  if empty (keyFile_ l) then globalKeyFile else keyFile_ l.

Definition missingTlsMaterial (P : Platform) (gc gk : string)
  (l : ListenerInfo) : bool :=
  wantsTls P l && (empty (effectiveCert gc l) || empty (effectiveKey gk l)).

(** The port test runs for loop index [i]. *)
Definition probes (P : Platform) (i : nat) : bool :=
  Nat.eqb i 0 && negb (reusePort P).

(** How one pass of the inner loop of the [__linux__] branch ends. *)
Definition linuxVerdict (P : Platform) (gc gk : string) (i : nat)
  (l : ListenerInfo) : option fatal :=
  if negb (parseable P l) then Some Abort
  else if probes P i && negb (bindSucceeds P (listenAddressOf P l))
  then Some BindFailed
  else if missingTlsMaterial P gc gk l then Some (Exit 1)
  else None.

(** How one pass of the loop of the other branch ends. *)
Definition otherVerdict (P : Platform) (gc gk : string) (l : ListenerInfo)
  : option fatal :=
  if missingTlsMaterial P gc gk l then Some (Exit 1) else None.

Definition verdict (P : Platform) (gc gk : string) (l : ListenerInfo)
  : option fatal :=
  if is_linux P then linuxVerdict P gc gk 0 l else otherVerdict P gc gk l.

Definition passes (v : option fatal) : bool :=
  match v with
  | None => true
  | Some _ => false
  end.

(** Every declared listener gets through the first pass. *)
Definition allPass (P : Platform) (gc gk : string) (ls : list ListenerInfo)
  : bool :=
  forallb (fun l => passes (verdict P gc gk l)) ls.

(** The events of the port test for one address. *)
Definition probeTrace (P : Platform) (i : nat) (a : InetAddress)
  : list event :=
  if probes P i
  then [FileLock lock_path true;
        NewTcpServer (appLoop P) a "drogonPortTest" true false] ++
       (if bindSucceeds P a then [DeleteTcpServer; FileUnlock] else [])
  else [].

(** The events of one pass of the inner loop of the [__linux__] branch. *)
Definition linuxTrace (P : Platform) (gc gk : string) (i : nat)
  (loop : EventLoop) (l : ListenerInfo) : list event :=
  let a := listenAddressOf P l in
  if negb (parseable P l) then [LogFatal (msg_parse_failed (ip_ l))]
  else probeTrace P i a ++
       (if probes P i && negb (bindSucceeds P a) then []
        else NewHttpServer loop a "drogon" ::
             (if missingTlsMaterial P gc gk l then [Stderr msg_no_cert]
              else [])).

(** The events of one pass of the loop of the other branch. *)
Definition otherTrace (P : Platform) (gc gk : string) (l : ListenerInfo)
  : list event :=
  NewHttpServer (listeningLoop P) (listenAddressOf P l) "drogon" ::
  (if missingTlsMaterial P gc gk l then [Stderr msg_no_cert] else []).

(** The TLS policy a listener resolves to under the [__linux__] branch. *)
Definition linuxPolicy (P : Platform) (gc gk : string) (cmds : ConfCmds)
  (l : ListenerInfo) : option TLSPolicy :=
  if wantsTls P l
  then Some (mkTLSPolicy (effectiveCert gc l) (effectiveKey gk l)
               (cmds ++ sslConfCmds_ l) (useOldTLS_ l))
  else None.

(** The TLS policy a listener resolves to under the other branch. *)
Definition otherPolicy (P : Platform) (gc gk : string) (cmds : ConfCmds)
  (l : ListenerInfo) : option TLSPolicy :=
  if wantsTls P l
  then Some (mkTLSPolicy (effectiveCert gc l) (effectiveKey gk l)
               cmds (useOldTLS_ l))
  else None.

(** The instance the [__linux__] branch realizes for a loop and a listener. *)
Definition linuxInstance (P : Platform) (m : ListenerManager)
  (gc gk : string) (cmds : ConfCmds) (loop : EventLoop) (l : ListenerInfo)
  : HttpServer :=
  mkHttpServer loop (listenAddressOf P l) "drogon"
    (beforeListenSetSockOptCallback_ m) (afterAcceptSetSockOptCallback_ m)
    (connectionCallback_ m) (linuxPolicy P gc gk cmds l) [].

(** The instance the other branch realizes for a listener. *)
Definition otherInstance (P : Platform) (gc gk : string) (cmds : ConfCmds)
  (ioLoops : list EventLoop) (l : ListenerInfo) : HttpServer :=
  mkHttpServer (listeningLoop P) (listenAddressOf P l) "drogon"
    None None None (otherPolicy P gc gk cmds l) ioLoops.

(** The instances a complete run realizes, in order of construction. *)
Definition topology (P : Platform) (m : ListenerManager) (gc gk : string)
  (cmds : ConfCmds) (ioLoops : list EventLoop) : list HttpServer :=
  if is_linux P
  then flat_map (fun loop =>
                   map (linuxInstance P m gc gk cmds loop) (listeners_ m))
         ioLoops
  else map (otherInstance P gc gk cmds ioLoops) (listeners_ m).

(** The instances realized by a run that started from [m]. *)
Definition realized (m : ListenerManager)
  (r : result unit * ListenerManager * list event) : list HttpServer :=
  skipn (length (servers_ m)) (servers_ (final r)).

Definition tlsEnabled (s : HttpServer) : bool :=
  match srv_sslPolicy s with
  | Some _ => true
  | None => false
  end.

Definition isPortTest (e : event) : bool :=
  match e with
  | NewTcpServer _ _ _ _ _ => true
  | _ => false
  end.

Definition isThreadRun (e : event) : bool :=
  match e with
  | ThreadRun _ => true
  | _ => false
  end.

Definition isFatal {A} (r : result A) : bool :=
  match r with
  | Ok _ => false
  | Fatal _ => true
  end.

(** The events of the passes of the [__linux__] branch over the loops
    from index [i] on, when no pass ends the run. *)
Fixpoint linuxPasses (P : Platform) (gc gk : string) (i : nat)
  (loops : list EventLoop) (ls : list ListenerInfo) : list event :=
  match loops with
  | [] => []
  | loop :: rest =>
      flat_map (linuxTrace P gc gk i loop) ls ++
      linuxPasses P gc gk (S i) rest ls
  end.

(** The thread the other branch starts. *)
Definition listeningThreadOf (P : Platform) : EventLoopThread :=
  mkEventLoopThread "DrogonListeningLoop" (listeningLoop P).

(** ** Sample platforms and listeners *)

Definition isDigit (c : ascii) : bool :=
  let n := nat_of_ascii c in (48 <=? n)%nat && (n <=? 57)%nat.

Definition isHexDigit (c : ascii) : bool :=
  let n := nat_of_ascii c in
  isDigit c || ((65 <=? n)%nat && (n <=? 70)%nat)
  || ((97 <=? n)%nat && (n <=? 102)%nat).

(** The fields of [s] between occurrences of [c]. *)
Fixpoint fields (c : ascii) (s : string) : list string :=
  match s with
  | EmptyString => [EmptyString]
  | String a s' =>
      if Ascii.eqb a c then EmptyString :: fields c s'
      else match fields c s' with
           | [] => [String a EmptyString]
           | f :: fs => String a f :: fs
           end
  end.

Fixpoint allChars (p : ascii -> bool) (s : string) : bool :=
  match s with
  | EmptyString => true
  | String a s' => p a && allChars p s'
  end.

Fixpoint decimal (acc : N) (s : string) : N :=
  match s with
  | EmptyString => acc
  | String a s' => decimal (10 * acc + (N_of_ascii a - 48))%N s'
  end.

Definition isOctet (s : string) : bool :=
  negb (empty s) && (String.length s <=? 3)%nat && allChars isDigit s
  && (decimal 0 s <=? 255)%N.

(** A stand-in for [inet_pton]: dotted quads for [AF_INET]; for
    [AF_INET6] two to eight colon-separated groups of at most four
    hexadecimal digits. *)
Definition sample_pton (ipv6 : bool) (s : string) : bool :=
  if ipv6
  then let gs := fields ":"%char s in
       (2 <=? length gs)%nat && (length gs <=? 8)%nat
       && forallb (fun g => (String.length g <=? 4)%nat
                            && allChars isHexDigit g) gs
  else let fs := fields "."%char s in
       (length fs =? 4)%nat && forallb isOctet fs.

(** A platform whose binds all succeed and whose caller runs no loop. *)
Definition samplePlatform (linux tls reuse : bool) : Platform :=
  mkPlatform linux tls reuse sample_pton (fun _ => true) 100 200
    (fun _ => false).

(** A platform on which port 80 is taken. *)
Definition busyPlatform : Platform :=
  mkPlatform true true false sample_pton
    (fun a => negb (N.eqb (toPort a) 80)) 100 200 (fun _ => false).

(** A platform whose caller runs the listening loop. *)
Definition selfStopPlatform : Platform :=
  mkPlatform false true false sample_pton (fun _ => true) 100 200
    (fun l => Nat.eqb l 200).

Definition plainListener : ListenerInfo :=
  mkListenerInfo "0.0.0.0" 80 false "" "" false [].

Definition v6Listener : ListenerInfo :=
  mkListenerInfo "::1" 8080 false "" "" false [].

Definition tlsListener : ListenerInfo :=
  mkListenerInfo "0.0.0.0" 443 true "own.crt" "own.key" false
    [("MinProtocol", "TLSv1.3")].

Definition inheritingListener : ListenerInfo :=
  mkListenerInfo "127.0.0.1" 8443 true "" "" true [].

Definition brokenListener : ListenerInfo :=
  mkListenerInfo "not-an-ip" 80 false "" "" false [].

Definition globalCmds : ConfCmds := [("Options", "-SessionTicket")].

(** A manager with the given listeners declared and callbacks set. *)
Definition declared (ls : list ListenerInfo) (cb1 cb2 : SockOptCallback)
  (cb3 : ConnectionCallback) : ListenerManager :=
  mkListenerManager ls [] None cb1 cb2 cb3.

(** ** Statements *)

(** Every probe succeeds, or none is made. *)
Definition probesSucceed (P : Platform) (ls : list ListenerInfo) : bool :=
  reusePort P || forallb (fun l => bindSucceeds P (listenAddressOf P l)) ls.

(** No listener asks for TLS without a certificate and a key to use. *)
Definition tlsMaterialPresent (P : Platform) (gc gk : string)
  (ls : list ListenerInfo) : bool :=
  forallb (fun l => negb (missingTlsMaterial P gc gk l)) ls.

(** None of the listeners [ls] ends the run: none asks for TLS without
    material, and, under the [__linux__] branch, every address parses and
    every port test succeeds. *)
Definition noneFails (P : Platform) (gc gk : string)
  (ls : list ListenerInfo) : bool :=
  tlsMaterialPresent P gc gk ls &&
  (negb (is_linux P) || (forallb (parseable P) ls && probesSucceed P ls)).

(** One instance per pair of a loop and a listener: instance number
    [i * M + j] runs on loop [i] and listens where listener [j] says, and
    no two pairs share a number. *)
Definition perLoopTopology (P : Platform) (m : ListenerManager)
  (loops : list EventLoop) (r : result unit * ListenerManager * list event)
  : Prop :=
  let M := length (listeners_ m) in
  length (realized m r) = length loops * M /\
  (forall i j loop l,
     nth_error loops i = Some loop ->
     nth_error (listeners_ m) j = Some l ->
     exists s,
       nth_error (realized m r) (i * M + j) = Some s /\
       srv_loop s = loop /\
       srv_address s = listenAddressOf P l) /\
  (forall i j i' j',
     j < M -> j' < M -> i * M + j = i' * M + j' -> i = i' /\ j = j').

(** The specification's wording of C1: the per-loop topology under the
    only condition that every address parses. *)
Definition perLoopTopology_whenParseable : Prop :=
  forall P gc gk cmds loops m,
    is_linux P = true ->
    forallb (parseable P) (listeners_ m) = true ->
    perLoopTopology P m loops (createListeners P gc gk cmds loops m).

(** A dedicated listening thread is started exactly when a listener is
    declared. *)
Definition dedicatedThread (P : Platform) (m : ListenerManager)
  (r : result unit * ListenerManager * list event) : Prop :=
  length (filter isThreadRun (trace r)) =
    match listeners_ m with
    | [] => 0
    | _ :: _ => 1
    end /\
  listeningThread_ (final r) =
    match listeners_ m with
    | [] => listeningThread_ m
    | _ :: _ => Some (listeningThreadOf P)
    end.

(** One instance per listener, on the loop of the listening thread, with
    all the worker loops handed to it. *)
Definition singleThreadTopology (P : Platform) (m : ListenerManager)
  (loops : list EventLoop) (r : result unit * ListenerManager * list event)
  : Prop :=
  length (realized m r) = length (listeners_ m) /\
  forall j l,
    nth_error (listeners_ m) j = Some l ->
    exists s,
      nth_error (realized m r) j = Some s /\
      srv_loop s = listeningLoop P /\
      srv_address s = listenAddressOf P l /\
      srv_ioLoops s = loops.

(** The specification's wording of C2: the thread and the single-thread
    topology without any condition on the listeners. *)
Definition singleThreadTopology_always : Prop :=
  forall P gc gk cmds loops m,
    is_linux P = false ->
    dedicatedThread P m (createListeners P gc gk cmds loops m) /\
    singleThreadTopology P m loops (createListeners P gc gk cmds loops m).

Definition sampleLoops : list EventLoop := [1; 2].

Definition sampleManager : ListenerManager :=
  declared [plainListener; tlsListener; v6Listener] (Some 7) None (Some 9).

(** One listener that asks for TLS and names no certificate. *)
Definition bareTlsManager : ListenerManager :=
  declared [inheritingListener] None None None.

(** The TLS policy of an instance carries the certificate and key the
    listener resolves to: its own when not empty, the global one
    otherwise. *)
Definition resolvedMaterial (gc gk : string) (l : ListenerInfo)
  (s : HttpServer) : Prop :=
  exists p,
    srv_sslPolicy s = Some p /\
    certPath p = (if empty (certFile_ l) then gc else certFile_ l) /\
    keyPath p = (if empty (keyFile_ l) then gk else keyFile_ l).



(** A listener with its own certificate, then one without any. *)
Definition mixedTlsManager : ListenerManager :=
  declared [tlsListener; inheritingListener] None None None.

(** The specification's wording of C6, in its weakest reading: a listener
    whose address does not parse always ends the run. *)
Definition unparseableIsFatal_always : Prop :=
  forall P gc gk cmds loops m l,
    In l (listeners_ m) ->
    inet_pton P (contains ":"%char (ip_ l)) (ip_ l) = false ->
    isFatal (outcome (createListeners P gc gk cmds loops m)) = true.

(** The address of an instance was parsed in the family its literal
    selects: [AF_INET6] with a colon, [AF_INET] without. *)
Definition parsedByColon (P : Platform) (s : HttpServer) : Prop :=
  isIpV6 (srv_address s) = contains ":"%char (toIp (srv_address s)) /\
  isUnspecified (srv_address s) =
  negb (inet_pton P (contains ":"%char (toIp (srv_address s)))
          (toIp (srv_address s))).

Definition brokenManager : ListenerManager :=
  declared [plainListener; brokenListener; v6Listener] None None None.

(** One listener declared, then the three callbacks set. *)
Definition callbackSetup (P : Platform) : M unit :=
  addListener P "0.0.0.0" 80 false "" "" false [] ;;;
  setBeforeListenSockOptCallback (Some 7) ;;;
  setAfterAcceptSockOptCallback (Some 8) ;;;
  setConnectionCallback (Some 9).

Definition callbackManager (P : Platform) : ListenerManager :=
  final (callbackSetup P newListenerManager).

Definition ownCmdsManager : ListenerManager :=
  declared [tlsListener] None None None.

(** The events of loop index [i] and one listener when nothing fails: the
    port test, made exactly for loop index 0 with port sharing off and
    bracketed by the file lock, and then the construction of the
    instance. *)
Definition pairEvents (P : Platform) (i : nat) (loop : EventLoop)
  (l : ListenerInfo) : list event :=
  (if Nat.eqb i 0 && negb (reusePort P)
   then [FileLock lock_path true;
         NewTcpServer (appLoop P) (listenAddressOf P l) "drogonPortTest"
           true false;
         DeleteTcpServer;
         FileUnlock]
   else []) ++
  [NewHttpServer loop (listenAddressOf P l) "drogon"].

(** The loops with their indices, counted from [i]. *)
Definition indexed (i : nat) (loops : list EventLoop)
  : list (nat * EventLoop) :=
  combine (seq i (length loops)) loops.

Definition isLoopQuit (e : event) : bool :=
  match e with
  | LoopQuit _ => true
  | _ => false
  end.

(** A manager that has realized two instances and owns a listening
    thread. *)
Definition runningManager : ListenerManager :=
  final (createListeners (samplePlatform false true false) "g.crt" "g.key"
           globalCmds sampleLoops mixedTlsManager).

(** [addListener] for each of [ls], in order. *)
Definition declareAll (P : Platform) (ls : list ListenerInfo) : M unit :=
  forEach ls (fun l =>
    addListener P (ip_ l) (port_ l) (useSSL_ l) (certFile_ l) (keyFile_ l)
      (useOldTLS_ l) (sslConfCmds_ l)).

(** The specification's wording of C8 for one pass of the inner loop of
    the [__linux__] branch: the port test is made exactly when the loop
    index is 0 and port sharing is off, whatever the listener. *)
Definition portTestAtFirstLoop_always : Prop :=
  forall P gc gk cmds i loop l m,
    existsb isPortTest (trace (linuxListener P gc gk cmds i loop l m)) = true
    <-> i = 0 /\ reusePort P = false.

(** A platform of the other branch whose listening thread owns another
    loop: what a second call finds. *)
Definition laterPlatform : Platform :=
  mkPlatform false true false sample_pton (fun _ => true) 100 201
    (fun _ => false).

(** ** The rest of the life cycle *)

(** What [startListening] and [reloadSSLFiles] ask of an instance. *)
Inductive call :=
| ServerStart (s : HttpServer)
| ServerReloadSSL (s : HttpServer).

(** [ListenerManager::startListening]: the calls it issues, in order; the
    manager itself is not written to. *)
Definition startListening (m : ListenerManager) : list call :=
  map ServerStart (servers_ m).

(** [ListenerManager::reloadSSLFiles]: the calls it issues, in order; the
    manager itself is not written to. *)
Definition reloadSSLFiles (m : ListenerManager) : list call :=
  map ServerReloadSSL (servers_ m).

Definition callTarget (c : call) : HttpServer :=
  match c with
  | ServerStart s => s
  | ServerReloadSSL s => s
  end.

(** ** Counting events *)

Definition count (p : event -> bool) (t : list event) : nat :=
  length (filter p t).

Definition isFileLock (e : event) : bool :=
  match e with
  | FileLock _ _ => true
  | _ => false
  end.

Definition isFileUnlock (e : event) : bool :=
  match e with
  | FileUnlock => true
  | _ => false
  end.

Definition isDeleteTcpServer (e : event) : bool :=
  match e with
  | DeleteTcpServer => true
  | _ => false
  end.

Definition isNewHttpServer (e : event) : bool :=
  match e with
  | NewHttpServer _ _ _ => true
  | _ => false
  end.

Definition isLogError (e : event) : bool :=
  match e with
  | LogError _ => true
  | _ => false
  end.

(** The listener asks for SSL on a build without TLS. *)
Definition sslWithoutTls (P : Platform) (l : ListenerInfo) : bool :=
  useSSL_ l && negb (supportsTls P).

(** The three callbacks of a manager. *)
Definition callbacksOf (m : ListenerManager)
  : SockOptCallback * SockOptCallback * ConnectionCallback :=
  (beforeListenSetSockOptCallback_ m, afterAcceptSetSockOptCallback_ m,
   connectionCallback_ m).

(** The three callbacks of an instance. *)
Definition installedOn (s : HttpServer)
  : SockOptCallback * SockOptCallback * ConnectionCallback :=
  (srv_beforeListenSockOpt s, srv_afterAcceptSockOpt s,
   srv_connectionCallback s).

(** The run ended inside the port test. *)
Definition endedInPortTest (r : result unit) : bool :=
  match r with
  | Fatal BindFailed => true
  | _ => false
  end.

(** The run ended in [exit]. *)
Definition endedInExit (r : result unit) : bool :=
  match r with
  | Fatal (Exit _) => true
  | _ => false
  end.

(** A platform without TLS in the build. *)
Definition plainPlatform (linux : bool) : Platform :=
  samplePlatform linux false false.

(** The port tests a complete run makes: one per listener, in the pass of
    loop 0, when port sharing is off. *)
Definition portTestsDue (P : Platform) (loops : list EventLoop)
  (m : ListenerManager) : nat :=
  if is_linux P && negb (reusePort P)
  then match loops with
       | [] => 0
       | _ :: _ => length (listeners_ m)
       end
  else 0.

Definition oneIf (b : bool) : nat := if b then 1 else 0.

(** What holds of the events of the port test: the lock is the exclusive
    lock on the one lock file; the test server is built on the loop of
    the application, under its own name, with address reuse on and port
    sharing off, on the parsed address of a declared listener. *)
Definition portTestEvent (P : Platform) (ls : list ListenerInfo) (e : event)
  : Prop :=
  match e with
  | FileLock path exclusive => path = "/tmp/drogon.lock" /\ exclusive = true
  | NewTcpServer loop a name reUseAddr reUsePort =>
      loop = appLoop P /\ name = "drogonPortTest" /\
      reUseAddr = true /\ reUsePort = false /\
      isUnspecified a = false /\
      exists l, In l ls /\ a = listenAddressOf P l
  | _ => True
  end.

(** The three setters, called in turn. *)
Definition setCallbacks (cb1 cb2 : SockOptCallback) (cb3 : ConnectionCallback)
  : M unit :=
  setBeforeListenSockOptCallback cb1 ;;;
  setAfterAcceptSockOptCallback cb2 ;;;
  setConnectionCallback cb3.

Definition withoutTls (s : HttpServer) : bool := negb (tlsEnabled s).

(** The passes a complete run makes over the listeners. *)
Definition passesOver (P : Platform) (loops : list EventLoop) : nat :=
  if is_linux P then length loops else 1.

(** * Proofs *)

(** ** One pass of each loop *)

Ltac run_monad :=
  unfold bind, emit, die, ret, get, servers_push_back, listeningThread_reset;
  cbn.

Lemma linuxListener_run P gc gk cmds i loop l m :
  linuxListener P gc gk cmds i loop l m =
  match linuxVerdict P gc gk i l with
  | None => (Ok tt, with_servers m [linuxInstance P m gc gk cmds loop l],
             linuxTrace P gc gk i loop l)
  | Some f => (Fatal f, m, linuxTrace P gc gk i loop l)
  end.
Proof.
  unfold linuxListener, linuxVerdict, linuxTrace, probeTrace, portTest,
    DrogonFileLocker_new, DrogonFileLocker_delete, TcpServer_new,
    TcpServer_delete, linuxInstance, linuxPolicy, missingTlsMaterial, wantsTls, parseable,
    effectiveCert, effectiveKey, listenAddressOf, probes.
  destruct (isUnspecified _) eqn:Eu; cbn [negb]; [reflexivity|].
  destruct (Nat.eqb i 0 && negb (reusePort P)) eqn:Ep; cbn [andb];
    [destruct (bindSucceeds P _) eqn:Eb; cbn [negb]|];
    try (destruct (useSSL_ l && supportsTls P) eqn:Et; cbn [andb];
         [destruct (empty _ || empty _) eqn:Ee|]);
    run_monad; rewrite ?Eb; try reflexivity;
    destruct m as [ls ss th [b|] [a|] [c|]]; cbn; rewrite ?Et; reflexivity.
Qed.

Lemma otherListener_run P gc gk cmds loops l m t :
  listeningThread_ m = Some t ->
  thread_loop t = listeningLoop P ->
  otherListener P gc gk cmds loops l m =
  match otherVerdict P gc gk l with
  | None => (Ok tt, with_servers m [otherInstance P gc gk cmds loops l],
             otherTrace P gc gk l)
  | Some f => (Fatal f, m, otherTrace P gc gk l)
  end.
Proof.
  intros Ht Hl.
  unfold otherListener, otherVerdict, otherTrace, otherInstance,
    otherPolicy, missingTlsMaterial, wantsTls, effectiveCert, effectiveKey,
    listenAddressOf.
  destruct (useSSL_ l && supportsTls P) eqn:Et; cbn [andb];
    [destruct (empty _ || empty _) eqn:Ee|];
    run_monad; unfold with_servers; rewrite Ht, Hl; reflexivity.
Qed.

(** ** Loops whose passes either append one instance or end the run *)

Lemma with_servers_nil m : with_servers m [] = m.
Proof. destruct m; unfold with_servers; cbn. now rewrite app_nil_r. Qed.

Lemma with_servers_app m ss ts :
  with_servers (with_servers m ss) ts = with_servers m (ss ++ ts).
Proof. unfold with_servers; cbn. now rewrite app_assoc. Qed.

Section Loop.

Context {A : Type}.
Variable m0 : ListenerManager.
Variable body : A -> M unit.
Variable v : A -> option fatal.
Variable inst : A -> HttpServer.
Variable tr : A -> list event.

Hypothesis body_run : forall x ss,
  body x (with_servers m0 ss) =
  match v x with
  | None => (Ok tt, with_servers m0 (ss ++ [inst x]), tr x)
  | Some f => (Fatal f, with_servers m0 ss, tr x)
  end.

Lemma forEach_pass l : forall ss,
  forallb (fun x => passes (v x)) l = true ->
  forEach l body (with_servers m0 ss) =
  (Ok tt, with_servers m0 (ss ++ map inst l), flat_map tr l).
Proof.
  induction l as [|x l IH]; intros ss H; cbn in *.
  - now rewrite app_nil_r.
  - apply andb_prop in H as [Hx Hl].
    unfold bind. rewrite body_run.
    destruct (v x); [discriminate|].
    rewrite (IH _ Hl), <- app_assoc. reflexivity.
Qed.

Lemma forEach_stop pre bad post f : forall ss,
  forallb (fun x => passes (v x)) pre = true ->
  v bad = Some f ->
  forEach (pre ++ bad :: post) body (with_servers m0 ss) =
  (Fatal f, with_servers m0 (ss ++ map inst pre), flat_map tr pre ++ tr bad).
Proof.
  induction pre as [|x pre IH]; intros ss H Hb; cbn in *.
  - unfold bind. rewrite body_run, Hb, app_nil_r. reflexivity.
  - apply andb_prop in H as [Hx Hl].
    unfold bind. rewrite body_run.
    destruct (v x); [discriminate|].
    rewrite (IH _ Hl Hb), <- !app_assoc. reflexivity.
Qed.

End Loop.

(** A list either passes as a whole or has a first element that does not. *)
Lemma first_failure {A} (v : A -> option fatal) (l : list A) :
  forallb (fun x => passes (v x)) l = true \/
  exists pre bad post f,
    l = pre ++ bad :: post /\
    forallb (fun x => passes (v x)) pre = true /\
    v bad = Some f.
Proof.
  induction l as [|x l IH]; cbn.
  - now left.
  - destruct (v x) as [f|] eqn:E.
    + right. exists [], x, l, f. cbn. auto.
    + destruct IH as [H | (pre & bad & post & f & -> & Hp & Hb)].
      * left. exact H.
      * right. exists (x :: pre), bad, post, f. cbn. rewrite E. auto.
Qed.

(** ** The [__linux__] branch *)

Lemma linuxListener_step P gc gk cmds i loop m0 l ss :
  linuxListener P gc gk cmds i loop l (with_servers m0 ss) =
  match linuxVerdict P gc gk i l with
  | None => (Ok tt,
             with_servers m0 (ss ++ [linuxInstance P m0 gc gk cmds loop l]),
             linuxTrace P gc gk i loop l)
  | Some f => (Fatal f, with_servers m0 ss, linuxTrace P gc gk i loop l)
  end.
Proof.
  rewrite linuxListener_run.
  destruct (linuxVerdict P gc gk i l); [reflexivity|].
  now rewrite with_servers_app.
Qed.

(** A listener that passes at loop index 0 passes at every index. *)
Lemma linuxVerdict_later P gc gk i l :
  linuxVerdict P gc gk 0 l = None -> linuxVerdict P gc gk i l = None.
Proof.
  unfold linuxVerdict, probes.
  destruct (negb (parseable P l)); [discriminate|].
  destruct i as [|i]; [auto|]. cbn [Nat.eqb andb].
  destruct (negb (reusePort P) && negb (bindSucceeds P (listenAddressOf P l)));
    [discriminate|auto].
Qed.

Lemma linux_pass_later P gc gk i ls :
  forallb (fun l => passes (linuxVerdict P gc gk 0 l)) ls = true ->
  forallb (fun l => passes (linuxVerdict P gc gk i l)) ls = true.
Proof.
  rewrite !forallb_forall. intros H l Hl. specialize (H l Hl).
  destruct (linuxVerdict P gc gk 0 l) eqn:E; [discriminate|].
  now rewrite (linuxVerdict_later _ _ _ i _ E).
Qed.

Lemma bind_get {B} (k : ListenerManager -> M B) m :
  bind get k m = k m m.
Proof. unfold bind, get. destruct (k m m) as [[r m2] t2]. reflexivity. Qed.

Lemma bind_emit {B} e (k : unit -> M B) m :
  bind (emit e) k m =
  (outcome (k tt m), final (k tt m), e :: trace (k tt m)).
Proof. unfold bind, emit. destruct (k tt m) as [[r m2] t2]. reflexivity. Qed.

Lemma bind_ok {A B} (c : M A) (k : A -> M B) m a m1 t1 :
  c m = (Ok a, m1, t1) ->
  bind c k m = (outcome (k a m1), final (k a m1), t1 ++ trace (k a m1)).
Proof.
  intros H. unfold bind. rewrite H.
  destruct (k a m1) as [[r m2] t2]. reflexivity.
Qed.

Lemma bind_fatal {A B} (c : M A) (k : A -> M B) m f m1 t1 :
  c m = (Fatal f, m1, t1) ->
  bind c k m = (Fatal f, m1, t1).
Proof. intros H. unfold bind. now rewrite H. Qed.

Lemma linux_pass_run P gc gk cmds m0 i loop ss :
  forallb (fun l => passes (linuxVerdict P gc gk 0 l)) (listeners_ m0) = true ->
  (m <- get ;;
   forEach (listeners_ m) (linuxListener P gc gk cmds i loop))
    (with_servers m0 ss) =
  (Ok tt,
   with_servers m0
     (ss ++ map (linuxInstance P m0 gc gk cmds loop) (listeners_ m0)),
   flat_map (linuxTrace P gc gk i loop) (listeners_ m0)).
Proof.
  intros H. rewrite bind_get.
  change (listeners_ (with_servers m0 ss)) with (listeners_ m0).
  apply (forEach_pass m0 _ (linuxVerdict P gc gk i)).
  - intros x ts. apply linuxListener_step.
  - now apply linux_pass_later.
Qed.

Lemma linux_loops_pass P gc gk cmds m0 loops : forall i ss,
  forallb (fun l => passes (linuxVerdict P gc gk 0 l)) (listeners_ m0) = true ->
  forIndexed i loops (fun i ioLoop =>
    m <- get ;;
    forEach (listeners_ m) (linuxListener P gc gk cmds i ioLoop))
    (with_servers m0 ss) =
  (Ok tt,
   with_servers m0
     (ss ++ flat_map (fun loop =>
                        map (linuxInstance P m0 gc gk cmds loop)
                          (listeners_ m0)) loops),
   linuxPasses P gc gk i loops (listeners_ m0)).
Proof.
  induction loops as [|loop loops IH]; intros i ss H; cbn [forIndexed].
  - cbn. now rewrite app_nil_r.
  - rewrite (bind_ok _ _ _ _ _ _ (linux_pass_run P gc gk cmds m0 i loop ss H)).
    rewrite (IH (S i) _ H). cbn. now rewrite <- app_assoc.
Qed.

Lemma createListeners_linux_nil P gc gk cmds m :
  is_linux P = true ->
  createListeners P gc gk cmds [] m = (Ok tt, m, [LogTrace "thread num=" 0]).
Proof.
  intros HL. unfold createListeners. rewrite HL. reflexivity.
Qed.

Lemma createListeners_linux_pass P gc gk cmds loops m :
  is_linux P = true ->
  allPass P gc gk (listeners_ m) = true ->
  createListeners P gc gk cmds loops m =
  (Ok tt, with_servers m (topology P m gc gk cmds loops),
   LogTrace "thread num=" (length loops) ::
   linuxPasses P gc gk 0 loops (listeners_ m)).
Proof.
  intros HL H. unfold createListeners, allPass, verdict, topology in *.
  rewrite HL in *. rewrite bind_emit.
  pose proof (linux_loops_pass P gc gk cmds m loops 0 [] H) as E.
  rewrite with_servers_nil in E. rewrite E. reflexivity.
Qed.

Lemma createListeners_linux_stop P gc gk cmds loop loops m pre bad post f :
  is_linux P = true ->
  listeners_ m = pre ++ bad :: post ->
  allPass P gc gk pre = true ->
  verdict P gc gk bad = Some f ->
  createListeners P gc gk cmds (loop :: loops) m =
  (Fatal f, with_servers m (map (linuxInstance P m gc gk cmds loop) pre),
   LogTrace "thread num=" (S (length loops)) ::
   flat_map (linuxTrace P gc gk 0 loop) pre ++ linuxTrace P gc gk 0 loop bad).
Proof.
  intros HL Hs H Hb. unfold createListeners, allPass, verdict in *.
  rewrite HL in *. rewrite bind_emit. cbn [forIndexed length].
  assert (E : (m1 <- get ;;
               forEach (listeners_ m1) (linuxListener P gc gk cmds 0 loop)) m =
              (Fatal f,
               with_servers m (map (linuxInstance P m gc gk cmds loop) pre),
               flat_map (linuxTrace P gc gk 0 loop) pre ++
               linuxTrace P gc gk 0 loop bad)).
  { rewrite bind_get, Hs.
    pose proof (forEach_stop m _ (linuxVerdict P gc gk 0)
                  (linuxInstance P m gc gk cmds loop)
                  (linuxTrace P gc gk 0 loop)
                  (fun x ts => linuxListener_step P gc gk cmds 0 loop m x ts)
                  pre bad post f [] H Hb) as E.
    now rewrite with_servers_nil in E. }
  rewrite (bind_fatal _ _ _ _ _ _ E). reflexivity.
Qed.

(** ** The other branch *)

Lemma otherListener_step P gc gk cmds loops m l ss :
  otherListener P gc gk cmds loops l
    (with_servers (with_thread m (listeningThreadOf P)) ss) =
  match otherVerdict P gc gk l with
  | None => (Ok tt,
             with_servers (with_thread m (listeningThreadOf P))
               (ss ++ [otherInstance P gc gk cmds loops l]),
             otherTrace P gc gk l)
  | Some f => (Fatal f,
               with_servers (with_thread m (listeningThreadOf P)) ss,
               otherTrace P gc gk l)
  end.
Proof.
  rewrite (otherListener_run P gc gk cmds loops l _ (listeningThreadOf P));
    try reflexivity.
  destruct (otherVerdict P gc gk l); [reflexivity|].
  now rewrite with_servers_app.
Qed.

Lemma other_head P gc gk cmds loops m l ls :
  is_linux P = false ->
  listeners_ m = l :: ls ->
  createListeners P gc gk cmds loops m =
  let r := forEach (l :: ls) (otherListener P gc gk cmds loops)
             (with_thread m (listeningThreadOf P)) in
  (outcome r, final r,
   LogTrace "thread num=" (length loops) ::
   ThreadRun "DrogonListeningLoop" :: trace r).
Proof.
  intros HL Hs. unfold createListeners. rewrite HL, bind_emit, bind_get, Hs.
  cbv zeta.
  rewrite (bind_ok _ _ m tt (with_thread m (listeningThreadOf P)) [])
    by reflexivity.
  rewrite bind_emit. reflexivity.
Qed.

Lemma createListeners_other_nil P gc gk cmds loops m :
  is_linux P = false ->
  listeners_ m = [] ->
  createListeners P gc gk cmds loops m =
  (Ok tt, m, [LogTrace "thread num=" (length loops)]).
Proof.
  intros HL Hs. unfold createListeners. rewrite HL, bind_emit, bind_get, Hs.
  reflexivity.
Qed.

Lemma createListeners_other_pass P gc gk cmds loops m :
  is_linux P = false ->
  listeners_ m <> [] ->
  allPass P gc gk (listeners_ m) = true ->
  createListeners P gc gk cmds loops m =
  (Ok tt,
   with_servers (with_thread m (listeningThreadOf P))
     (topology P m gc gk cmds loops),
   LogTrace "thread num=" (length loops) ::
   ThreadRun "DrogonListeningLoop" ::
   flat_map (otherTrace P gc gk) (listeners_ m)).
Proof.
  intros HL Hne H. unfold allPass, verdict, topology in *. rewrite HL in *.
  destruct (listeners_ m) as [|l ls] eqn:Hs; [congruence|].
  rewrite (other_head P gc gk cmds loops m l ls HL Hs). cbv zeta.
  pose proof (forEach_pass (with_thread m (listeningThreadOf P)) _
                (otherVerdict P gc gk) (otherInstance P gc gk cmds loops)
                (otherTrace P gc gk)
                (fun x ts => otherListener_step P gc gk cmds loops m x ts)
                (l :: ls) [] H) as E.
  rewrite with_servers_nil in E. rewrite E. reflexivity.
Qed.

Lemma createListeners_other_stop P gc gk cmds loops m pre bad post f :
  is_linux P = false ->
  listeners_ m = pre ++ bad :: post ->
  allPass P gc gk pre = true ->
  verdict P gc gk bad = Some f ->
  createListeners P gc gk cmds loops m =
  (Fatal f,
   with_servers (with_thread m (listeningThreadOf P))
     (map (otherInstance P gc gk cmds loops) pre),
   LogTrace "thread num=" (length loops) ::
   ThreadRun "DrogonListeningLoop" ::
   flat_map (otherTrace P gc gk) pre ++ otherTrace P gc gk bad).
Proof.
  intros HL Hs H Hb. unfold allPass, verdict in *. rewrite HL in *.
  destruct (pre ++ bad :: post) as [|l ls] eqn:Hd.
  { destruct pre; discriminate. }
  rewrite (other_head P gc gk cmds loops m l ls HL Hs). cbv zeta.
  rewrite <- Hd.
  pose proof (forEach_stop (with_thread m (listeningThreadOf P)) _
                (otherVerdict P gc gk) (otherInstance P gc gk cmds loops)
                (otherTrace P gc gk)
                (fun x ts => otherListener_step P gc gk cmds loops m x ts)
                pre bad post f [] H Hb) as E.
  rewrite with_servers_nil in E. rewrite E. reflexivity.
Qed.

(** ** What a run realized *)

Lemma realized_with_servers (o : result unit) m ss t' :
  realized m (o, with_servers m ss, t') = ss.
Proof.
  unfold realized, final; cbn.
  rewrite skipn_app, skipn_all, Nat.sub_diag. reflexivity.
Qed.

Lemma realized_with_thread (o : result unit) m th ss t' :
  realized m (o, with_servers (with_thread m th) ss, t') = ss.
Proof.
  unfold realized, final; cbn.
  rewrite skipn_app, skipn_all, Nat.sub_diag. reflexivity.
Qed.

Lemma realized_same (o : result unit) m t' : realized m (o, m, t') = [].
Proof. unfold realized, final; cbn. apply skipn_all. Qed.

Lemma nth_error_grid {A B C} (f : A -> B -> C) (xs : list A) (ys : list B) :
  forall i j x y,
    nth_error xs i = Some x ->
    nth_error ys j = Some y ->
    nth_error (flat_map (fun x => map (f x) ys) xs) (i * length ys + j) =
    Some (f x y).
Proof.
  induction xs as [|x0 xs IH]; intros i j x y Hx Hy.
  - destruct i; discriminate.
  - destruct i as [|i]; cbn in *.
    + injection Hx as ->.
      rewrite nth_error_app1.
      * now rewrite nth_error_map, Hy.
      * rewrite length_map. apply nth_error_Some. congruence.
    + rewrite nth_error_app2; rewrite length_map; [|lia].
      replace (length ys + i * length ys + j - length ys)
        with (i * length ys + j) by lia.
      now apply IH.
Qed.

Lemma length_grid {A B C} (f : A -> B -> C) (xs : list A) (ys : list B) :
  length (flat_map (fun x => map (f x) ys) xs) = length xs * length ys.
Proof.
  induction xs as [|x xs IH]; cbn; [reflexivity|].
  now rewrite length_app, length_map, IH.
Qed.

Lemma grid_index_inj M i j i' j' :
  j < M -> j' < M -> i * M + j = i' * M + j' -> i = i' /\ j = j'.
Proof.
  intros Hj Hj' E. apply (Nat.div_mod_unique M); [assumption..|].
  now rewrite !(Nat.mul_comm M).
Qed.

Lemma allPass_linux P gc gk ls :
  is_linux P = true ->
  forallb (parseable P) ls = true ->
  probesSucceed P ls = true ->
  tlsMaterialPresent P gc gk ls = true ->
  allPass P gc gk ls = true.
Proof.
  unfold allPass, probesSucceed, tlsMaterialPresent, verdict, linuxVerdict,
    probes.
  intros -> Hp Hb Ht. rewrite forallb_forall in *. intros l Hl.
  rewrite (Hp l Hl). cbn [negb Nat.eqb andb].
  specialize (Ht l Hl). apply negb_true_iff in Ht. rewrite Ht.
  apply orb_prop in Hb as [Hr | Hb].
  - rewrite Hr. reflexivity.
  - rewrite forallb_forall in Hb. rewrite (Hb l Hl), andb_false_r.
    reflexivity.
Qed.

Lemma allPass_other P gc gk ls :
  is_linux P = false ->
  tlsMaterialPresent P gc gk ls = true ->
  allPass P gc gk ls = true.
Proof.
  unfold allPass, tlsMaterialPresent, verdict, otherVerdict.
  intros -> Ht. rewrite forallb_forall in *. intros l Hl.
  specialize (Ht l Hl). apply negb_true_iff in Ht. now rewrite Ht.
Qed.

Lemma noneFails_allPass P gc gk ls :
  noneFails P gc gk ls = true -> allPass P gc gk ls = true.
Proof.
  unfold noneFails. intros H. apply andb_prop in H as [Ht H].
  destruct (is_linux P) eqn:HL; cbn in H.
  - apply andb_prop in H as [Hp Hb]. now apply allPass_linux.
  - now apply allPass_other.
Qed.

(** ** The claims *)

(** C1, as amended.  On a platform of the [__linux__] branch, when every
    declared address parses, every port test succeeds (or port sharing is
    on, so that none is made) and no listener asks for TLS without
    certificate and key, [createListeners] returns having realized exactly
    N x M instances over N loops and M listeners: instance [i * M + j] is
    bound to loop [i] and to the address of listener [j], and different
    pairs get different instances. *)
Theorem C1_per_loop_topology P gc gk cmds loops m :
  is_linux P = true ->
  forallb (parseable P) (listeners_ m) = true ->
  probesSucceed P (listeners_ m) = true ->
  tlsMaterialPresent P gc gk (listeners_ m) = true ->
  outcome (createListeners P gc gk cmds loops m) = Ok tt /\
  perLoopTopology P m loops (createListeners P gc gk cmds loops m).
Proof.
  intros HL Hp Hb Ht.
  rewrite (createListeners_linux_pass P gc gk cmds loops m HL
             (allPass_linux P gc gk _ HL Hp Hb Ht)).
  split; [reflexivity|].
  unfold perLoopTopology. rewrite realized_with_servers.
  unfold topology. rewrite HL. split; [|split].
  - apply length_grid.
  - intros i j loop l Hi Hj.
    exists (linuxInstance P m gc gk cmds loop l).
    split; [now apply nth_error_grid | split; reflexivity].
  - intros i j i' j'. apply grid_index_inj.
Qed.

(** Two loops and three listeners, one of them with its own certificate. *)
Lemma C1_per_loop_topology_witness :
  is_linux (samplePlatform true true false) = true /\
  forallb (parseable (samplePlatform true true false))
    (listeners_ sampleManager) = true /\
  probesSucceed (samplePlatform true true false)
    (listeners_ sampleManager) = true /\
  tlsMaterialPresent (samplePlatform true true false) "g.crt" "g.key"
    (listeners_ sampleManager) = true /\
  outcome (createListeners (samplePlatform true true false) "g.crt" "g.key"
             globalCmds sampleLoops sampleManager) = Ok tt /\
  perLoopTopology (samplePlatform true true false) sampleManager sampleLoops
    (createListeners (samplePlatform true true false) "g.crt" "g.key"
       globalCmds sampleLoops sampleManager).
Proof.
  refine (conj eq_refl (conj eq_refl (conj eq_refl (conj eq_refl _)))).
  apply (C1_per_loop_topology (samplePlatform true true false)
           "g.crt" "g.key" globalCmds sampleLoops sampleManager);
    reflexivity.
Defined.

(** C1, as stated, fails: one loop and one listener whose address parses
    but which asks for TLS while no certificate is configured anywhere;
    the run exits and realizes nothing. *)
Lemma C1_counterexample : ~ perLoopTopology_whenParseable.
Proof.
  intros H.
  destruct (H (samplePlatform true true false) "" "" [] [1] bareTlsManager
              eq_refl eq_refl) as [Hlen _].
  vm_compute in Hlen. discriminate.
Qed.

(** Parseable addresses do not make the port test succeed either: with
    port 80 taken, the run ends inside the test of the first listener. *)
Example C1_taken_port_is_fatal :
  forallb (parseable busyPlatform) [plainListener] = true /\
  outcome (createListeners busyPlatform "" "" globalCmds sampleLoops
             (declared [plainListener] None None None)) = Fatal BindFailed /\
  realized (declared [plainListener] None None None)
    (createListeners busyPlatform "" "" globalCmds sampleLoops
       (declared [plainListener] None None None)) = [].
Proof. repeat split. Qed.

(** ** Every run, by cases *)

Lemma linux_cases P gc gk cmds loops m :
  is_linux P = true ->
  let r := createListeners P gc gk cmds loops m in
  (loops = [] /\ r = (Ok tt, m, [LogTrace "thread num=" 0])) \/
  (allPass P gc gk (listeners_ m) = true /\
   r = (Ok tt, with_servers m (topology P m gc gk cmds loops),
        LogTrace "thread num=" (length loops) ::
        linuxPasses P gc gk 0 loops (listeners_ m))) \/
  (exists loop rest pre bad post f,
     loops = loop :: rest /\
     listeners_ m = pre ++ bad :: post /\
     allPass P gc gk pre = true /\
     verdict P gc gk bad = Some f /\
     r = (Fatal f,
          with_servers m (map (linuxInstance P m gc gk cmds loop) pre),
          LogTrace "thread num=" (length loops) ::
          flat_map (linuxTrace P gc gk 0 loop) pre ++
          linuxTrace P gc gk 0 loop bad)).
Proof.
  intros HL r. subst r.
  destruct (first_failure (verdict P gc gk) (listeners_ m))
    as [H | (pre & bad & post & f & Hs & Hp & Hb)].
  - right; left. split; [exact H|].
    now apply createListeners_linux_pass.
  - destruct loops as [|loop rest].
    + left. split; [reflexivity|]. now apply createListeners_linux_nil.
    + right; right. exists loop, rest, pre, bad, post, f.
      repeat (split; [assumption || reflexivity|]).
      now apply (createListeners_linux_stop P gc gk cmds loop rest m
                   pre bad post f).
Qed.

Lemma other_cases P gc gk cmds loops m :
  is_linux P = false ->
  let r := createListeners P gc gk cmds loops m in
  (listeners_ m = [] /\
   r = (Ok tt, m, [LogTrace "thread num=" (length loops)])) \/
  (listeners_ m <> [] /\
   allPass P gc gk (listeners_ m) = true /\
   r = (Ok tt,
        with_servers (with_thread m (listeningThreadOf P))
          (topology P m gc gk cmds loops),
        LogTrace "thread num=" (length loops) ::
        ThreadRun "DrogonListeningLoop" ::
        flat_map (otherTrace P gc gk) (listeners_ m))) \/
  (exists pre bad post f,
     listeners_ m = pre ++ bad :: post /\
     allPass P gc gk pre = true /\
     verdict P gc gk bad = Some f /\
     r = (Fatal f,
          with_servers (with_thread m (listeningThreadOf P))
            (map (otherInstance P gc gk cmds loops) pre),
          LogTrace "thread num=" (length loops) ::
          ThreadRun "DrogonListeningLoop" ::
          flat_map (otherTrace P gc gk) pre ++ otherTrace P gc gk bad)).
Proof.
  intros HL r. subst r.
  destruct (first_failure (verdict P gc gk) (listeners_ m))
    as [H | (pre & bad & post & f & Hs & Hp & Hb)].
  - destruct (listeners_ m) as [|l ls] eqn:E.
    + left. split; [reflexivity|]. now apply createListeners_other_nil.
    + right; left. rewrite <- E in H |- *.
      assert (Hne : listeners_ m <> []) by congruence.
      split; [exact Hne|]. split; [exact H|].
      now apply createListeners_other_pass.
  - right; right. exists pre, bad, post, f.
    repeat (split; [assumption|]).
    now apply (createListeners_other_stop P gc gk cmds loops m pre bad post f).
Qed.

Lemma otherTrace_no_thread P gc gk l :
  filter isThreadRun (otherTrace P gc gk l) = [].
Proof.
  unfold otherTrace. destruct (missingTlsMaterial P gc gk l); reflexivity.
Qed.

Lemma otherTraces_no_thread P gc gk ls :
  filter isThreadRun (flat_map (otherTrace P gc gk) ls) = [].
Proof.
  induction ls as [|l ls IH]; cbn [flat_map]; [reflexivity|].
  now rewrite filter_app, otherTrace_no_thread, IH.
Qed.

Lemma allPass_middle P gc gk pre bad post f :
  allPass P gc gk (pre ++ bad :: post) = true ->
  verdict P gc gk bad = Some f ->
  False.
Proof.
  unfold allPass. rewrite forallb_app. cbn. intros H Hb.
  rewrite Hb in H. cbn in H. rewrite andb_false_r in H. discriminate.
Qed.

(** C2, as amended.  On a platform of the other branch, [createListeners]
    starts one dedicated listening thread if and only if a listener is
    declared; and when no listener asks for TLS without certificate and
    key, it returns having realized exactly one instance per declared
    listener, bound to the loop of that thread and given the whole set of
    worker loops. *)
Theorem C2_single_thread_topology P gc gk cmds loops m :
  is_linux P = false ->
  dedicatedThread P m (createListeners P gc gk cmds loops m) /\
  (tlsMaterialPresent P gc gk (listeners_ m) = true ->
   outcome (createListeners P gc gk cmds loops m) = Ok tt /\
   singleThreadTopology P m loops (createListeners P gc gk cmds loops m)).
Proof.
  intros HL.
  destruct (other_cases P gc gk cmds loops m HL)
    as [[Hs ->] | [(Hne & Hp & ->) | (pre & bad & post & f & Hs & Hp & Hb & ->)]];
    unfold dedicatedThread, singleThreadTopology.
  - rewrite realized_same, Hs. cbn.
    repeat split. intros [|j] l E; discriminate.
  - rewrite realized_with_thread. unfold topology. rewrite HL. cbn.
    rewrite otherTraces_no_thread.
    destruct (listeners_ m) as [|l0 ls] eqn:E; [congruence|]. rewrite <- E.
    repeat split.
    + apply length_map.
    + intros j l Hj. exists (otherInstance P gc gk cmds loops l).
      rewrite nth_error_map, Hj. repeat split.
  - rewrite realized_with_thread. cbn.
    rewrite filter_app, otherTraces_no_thread, otherTrace_no_thread. cbn.
    rewrite Hs. split.
    + destruct pre; split; reflexivity.
    + intros Ht. exfalso.
      apply (allPass_middle P gc gk pre bad post f); [|exact Hb].
      now apply allPass_other.
Qed.

(** Three listeners on a platform of the other branch, two worker loops. *)
Lemma C2_single_thread_topology_witness :
  is_linux (samplePlatform false true false) = false /\
  tlsMaterialPresent (samplePlatform false true false) "g.crt" "g.key"
    (listeners_ sampleManager) = true /\
  dedicatedThread (samplePlatform false true false) sampleManager
    (createListeners (samplePlatform false true false) "g.crt" "g.key"
       globalCmds sampleLoops sampleManager) /\
  outcome (createListeners (samplePlatform false true false) "g.crt" "g.key"
             globalCmds sampleLoops sampleManager) = Ok tt /\
  singleThreadTopology (samplePlatform false true false) sampleManager
    sampleLoops
    (createListeners (samplePlatform false true false) "g.crt" "g.key"
       globalCmds sampleLoops sampleManager).
Proof.
  refine (conj eq_refl (conj eq_refl _)).
  refine (match C2_single_thread_topology (samplePlatform false true false)
                  "g.crt" "g.key" globalCmds sampleLoops sampleManager eq_refl
          with
          | conj Hd Hi => conj Hd (Hi eq_refl)
          end).
Defined.

(** C2, as stated, fails: a single listener that asks for TLS while no
    certificate is configured anywhere; the thread is started, the run
    exits, and no instance is realized for the declared listener. *)
Lemma C2_counterexample : ~ singleThreadTopology_always.
Proof.
  intros H.
  destruct (H (samplePlatform false true false) "" "" [] [1] bareTlsManager
              eq_refl) as [_ [Hlen _]].
  vm_compute in Hlen. discriminate.
Qed.

(** ** Instances in order of construction *)

Lemma nth_error_grid_inv {A B C} (f : A -> B -> C) (xs : list A)
  (ys : list B) k c :
  nth_error (flat_map (fun x => map (f x) ys) xs) k = Some c ->
  exists x y,
    nth_error xs (k / length ys) = Some x /\
    nth_error ys (k mod length ys) = Some y /\
    c = f x y.
Proof.
  intros H.
  assert (Hk : k < length xs * length ys).
  { rewrite <- (length_grid f). apply nth_error_Some. congruence. }
  assert (HM : length ys <> 0) by lia.
  assert (Hi : k / length ys < length xs).
  { apply Nat.Div0.div_lt_upper_bound. lia. }
  assert (Hj : k mod length ys < length ys) by now apply Nat.mod_upper_bound.
  destruct (nth_error xs (k / length ys)) as [x|] eqn:Ex;
    [|apply nth_error_None in Ex; lia].
  destruct (nth_error ys (k mod length ys)) as [y|] eqn:Ey;
    [|apply nth_error_None in Ey; lia].
  exists x, y. repeat split.
  pose proof (nth_error_grid f xs ys _ _ x y Ex Ey) as E.
  replace (k / length ys * length ys + k mod length ys) with k in E.
  - congruence.
  - rewrite (Nat.div_mod_eq k (length ys)) at 1. lia.
Qed.

Lemma firstn_map_prefix {A B} (f : A -> B) pre t u :
  firstn (length pre) (map f (pre ++ t) ++ u) = map f pre.
Proof. induction pre as [|x pre IH]; cbn; [reflexivity|]. now rewrite IH. Qed.

(** Whatever the outcome, the instances a run realized are the first ones
    of the complete topology. *)
Lemma realized_prefix P gc gk cmds loops m :
  exists n,
    realized m (createListeners P gc gk cmds loops m) =
    firstn n (topology P m gc gk cmds loops).
Proof.
  destruct (is_linux P) eqn:HL.
  - destruct (linux_cases P gc gk cmds loops m HL)
      as [[Hs ->] | [(Hp & ->) |
          (loop & rest & pre & bad & post & f & -> & Hs & Hp & Hb & ->)]].
    + exists 0. now rewrite realized_same.
    + exists (length (topology P m gc gk cmds loops)).
      now rewrite realized_with_servers, firstn_all.
    + exists (length pre). rewrite realized_with_servers.
      unfold topology. rewrite HL, Hs. cbn [flat_map].
      now rewrite firstn_map_prefix.
  - destruct (other_cases P gc gk cmds loops m HL)
      as [[Hs ->] | [(Hne & Hp & ->) |
          (pre & bad & post & f & Hs & Hp & Hb & ->)]].
    + exists 0. now rewrite realized_same.
    + exists (length (topology P m gc gk cmds loops)).
      now rewrite realized_with_thread, firstn_all.
    + exists (length pre). rewrite realized_with_thread.
      unfold topology. rewrite HL, Hs.
      rewrite <- (app_nil_r (map _ (pre ++ _))).
      now rewrite firstn_map_prefix.
Qed.

Lemma nth_error_firstn_Some {A} n (l : list A) k x :
  nth_error (firstn n l) k = Some x -> nth_error l k = Some x.
Proof.
  revert l k. induction n as [|n IH]; intros [|y l] [|k] H; cbn in *;
    try discriminate; auto.
Qed.

(** Instance number [k] of a run, whatever its outcome, was built for
    listener [k mod M]. *)
Lemma realized_nth P gc gk cmds loops m k s :
  nth_error (realized m (createListeners P gc gk cmds loops m)) k = Some s ->
  exists l,
    nth_error (listeners_ m) (k mod length (listeners_ m)) = Some l /\
    if is_linux P
    then exists loop,
           nth_error loops (k / length (listeners_ m)) = Some loop /\
           s = linuxInstance P m gc gk cmds loop l
    else k < length (listeners_ m) /\
         s = otherInstance P gc gk cmds loops l.
Proof.
  destruct (realized_prefix P gc gk cmds loops m) as [n ->]. intros H.
  apply nth_error_firstn_Some in H. unfold topology in H.
  destruct (is_linux P).
  - apply nth_error_grid_inv in H as (loop & l & Hi & Hj & ->).
    exists l. split; [exact Hj|]. now exists loop.
  - assert (Hk : k < length (listeners_ m)).
    { rewrite <- (length_map (otherInstance P gc gk cmds loops)).
      apply nth_error_Some. congruence. }
    rewrite nth_error_map in H.
    rewrite Nat.mod_small by exact Hk.
    destruct (nth_error (listeners_ m) k) as [l|]; [|discriminate].
    injection H as <-. exists l. auto.
Qed.

(** C3.  Under either branch, the instance realized for a listener that
    asks for TLS, on a build that has TLS, carries a policy whose
    certificate path is the listener's [certFile] when that is not empty
    and the global certificate path otherwise, and likewise for the key. *)
Theorem C3_effective_tls_material P gc gk cmds loops m k s :
  nth_error (realized m (createListeners P gc gk cmds loops m)) k = Some s ->
  exists l,
    nth_error (listeners_ m) (k mod length (listeners_ m)) = Some l /\
    srv_address s = listenAddressOf P l /\
    (useSSL_ l = true -> supportsTls P = true -> resolvedMaterial gc gk l s).
Proof.
  intros H. apply realized_nth in H as (l & Hl & Hs).
  exists l. split; [exact Hl|].
  assert (E : srv_address s = listenAddressOf P l /\
              (wantsTls P l = true -> resolvedMaterial gc gk l s)).
  { unfold resolvedMaterial.
    destruct (is_linux P).
    - destruct Hs as (loop & _ & ->). split; [reflexivity|]. intros Hw.
      cbn. unfold linuxPolicy. rewrite Hw. eexists. repeat split.
    - destruct Hs as (_ & ->). split; [reflexivity|]. intros Hw.
      cbn. unfold otherPolicy. rewrite Hw. eexists. repeat split. }
  destruct E as [Ea Ep]. split; [exact Ea|].
  intros Hu Ht. apply Ep. unfold wantsTls. now rewrite Hu, Ht.
Qed.

(** The second instance of the other branch inherits the global certificate and key. *)
Lemma C3_effective_tls_material_witness :
  exists s,
    nth_error
      (realized mixedTlsManager
         (createListeners (samplePlatform false true false) "g.crt" "g.key"
            globalCmds sampleLoops mixedTlsManager)) 1 = Some s /\
    exists l,
      nth_error (listeners_ mixedTlsManager)
        (1 mod length (listeners_ mixedTlsManager)) = Some l /\
      srv_address s = listenAddressOf (samplePlatform false true false) l /\
      (useSSL_ l = true ->
       supportsTls (samplePlatform false true false) = true ->
       resolvedMaterial "g.crt" "g.key" l s).
Proof.
  eexists. split; [reflexivity|].
  apply (C3_effective_tls_material (samplePlatform false true false)
           "g.crt" "g.key" globalCmds sampleLoops mixedTlsManager 1).
  reflexivity.
Defined.

(** ** Missing TLS material *)








(** Under the [__linux__] branch and without a worker loop, the same
    listeners do not end the run at all. *)
Example C4_no_loop_no_exit :
  outcome (createListeners (samplePlatform true true false) "" "" globalCmds
             [] mixedTlsManager) = Ok tt.
Proof. reflexivity. Qed.

(** ** TLS directives *)

(** Under the [__linux__] branch every TLS-enabled instance carries the
    global directives followed by those of its listener. *)
Lemma linux_confCmds P gc gk cmds loops m k s p :
  is_linux P = true ->
  nth_error (realized m (createListeners P gc gk cmds loops m)) k = Some s ->
  srv_sslPolicy s = Some p ->
  exists l,
    nth_error (listeners_ m) (k mod length (listeners_ m)) = Some l /\
    confCmds p = cmds ++ sslConfCmds_ l.
Proof.
  intros HL H Hp. apply realized_nth in H as (l & Hl & Hs).
  rewrite HL in Hs. destruct Hs as (loop & _ & ->).
  exists l. split; [exact Hl|].
  cbn in Hp. unfold linuxPolicy in Hp.
  destruct (wantsTls P l); [|discriminate]. now injection Hp as <-.
Qed.

(** Under the other branch every TLS-enabled instance carries the global
    directives alone. *)
Lemma other_confCmds P gc gk cmds loops m k s p :
  is_linux P = false ->
  nth_error (realized m (createListeners P gc gk cmds loops m)) k = Some s ->
  srv_sslPolicy s = Some p ->
  confCmds p = cmds.
Proof.
  intros HL H Hp. apply realized_nth in H as (l & Hl & Hs).
  rewrite HL in Hs. destruct Hs as (_ & ->).
  cbn in Hp. unfold otherPolicy in Hp.
  destruct (wantsTls P l); [|discriminate]. now injection Hp as <-.
Qed.

(** C5.  A listener that brings the directive [MinProtocol TLSv1.3], with
    [Options -SessionTicket] as the global directive: the [__linux__]
    branch gives the instance the global directive followed by the
    listener's, the other branch gives it the global directive alone. *)
Theorem C5_other_branch_drops_listener_directives :
  map srv_sslPolicy
    (realized ownCmdsManager
       (createListeners (samplePlatform true true false) "" "" globalCmds
          [1] ownCmdsManager)) =
  [Some (mkTLSPolicy "own.crt" "own.key"
           (globalCmds ++ sslConfCmds_ tlsListener) false)] /\
  map srv_sslPolicy
    (realized ownCmdsManager
       (createListeners (samplePlatform false true false) "" "" globalCmds
          [1] ownCmdsManager)) =
  [Some (mkTLSPolicy "own.crt" "own.key" globalCmds false)].
Proof. split; reflexivity. Qed.

(** ** Address parsing *)

Lemma parseable_pton P l :
  parseable P l = inet_pton P (contains ":"%char (ip_ l)) (ip_ l).
Proof. unfold parseable, listenAddressOf; cbn. apply negb_involutive. Qed.

Lemma allPass_parseable P gc gk ls l :
  is_linux P = true ->
  allPass P gc gk ls = true ->
  In l ls ->
  parseable P l = true.
Proof.
  unfold allPass, verdict, linuxVerdict. intros -> H Hl.
  rewrite forallb_forall in H. specialize (H l Hl).
  destruct (parseable P l); [reflexivity | discriminate].
Qed.

(** Under the [__linux__] branch no instance is ever realized on an
    address that did not parse. *)
Lemma linux_realized_specified P gc gk cmds loops m s :
  is_linux P = true ->
  In s (realized m (createListeners P gc gk cmds loops m)) ->
  isUnspecified (srv_address s) = false.
Proof.
  intros HL.
  destruct (linux_cases P gc gk cmds loops m HL)
    as [[Hs ->] | [(Hp & ->) |
        (loop & rest & pre & bad & post & f & -> & Hs & Hp & Hb & ->)]].
  - rewrite realized_same. intros [].
  - rewrite realized_with_servers. unfold topology. rewrite HL.
    intros H. apply in_flat_map in H as (loop & _ & H).
    apply in_map_iff in H as (l & <- & Hl). cbn.
    apply negb_true_iff. fold (parseable P l).
    now apply (allPass_parseable P gc gk (listeners_ m)).
  - rewrite realized_with_servers.
    intros H. apply in_map_iff in H as (l & <- & Hl). cbn.
    apply negb_true_iff. fold (parseable P l).
    now apply (allPass_parseable P gc gk pre).
Qed.

Lemma realized_parsedByColon P gc gk cmds loops m s :
  In s (realized m (createListeners P gc gk cmds loops m)) ->
  parsedByColon P s.
Proof.
  intros H. apply In_nth_error in H as [k H].
  apply realized_nth in H as (l & _ & Hs).
  destruct (is_linux P).
  - destruct Hs as (loop & _ & ->). split; reflexivity.
  - destruct Hs as (_ & ->). split; reflexivity.
Qed.

(** C6, as amended.  Under either branch the address of a realized
    instance was parsed as IPv6 when its literal contains a colon and as
    IPv4 otherwise.  Under the [__linux__] branch no instance is realized
    on an address that did not parse; and with at least one worker loop, a
    declared listener whose literal does not parse makes the run fatal:
    when no listener declared before it fails, the run logs the
    literal and calls [abort()] at that listener, having realized the
    instances of the earlier listeners only. *)
Theorem C6_unparseable_address P gc gk cmds loops m :
  (forall s,
     In s (realized m (createListeners P gc gk cmds loops m)) ->
     parsedByColon P s) /\
  (is_linux P = true ->
   (forall s,
      In s (realized m (createListeners P gc gk cmds loops m)) ->
      isUnspecified (srv_address s) = false) /\
   (loops <> [] ->
    forall pre bad post,
      listeners_ m = pre ++ bad :: post ->
      inet_pton P (contains ":"%char (ip_ bad)) (ip_ bad) = false ->
      isFatal (outcome (createListeners P gc gk cmds loops m)) = true /\
      (noneFails P gc gk pre = true ->
       outcome (createListeners P gc gk cmds loops m) = Fatal Abort /\
       (exists t0,
          trace (createListeners P gc gk cmds loops m) =
          t0 ++ [LogFatal (msg_parse_failed (ip_ bad))]) /\
       length (realized m (createListeners P gc gk cmds loops m)) =
       length pre))).
Proof.
  split; [intros s; apply realized_parsedByColon|].
  intros HL. split; [intros s; now apply linux_realized_specified|].
  intros Hne pre bad post Hs Hbad.
  rewrite <- parseable_pton in Hbad.
  assert (Hv : verdict P gc gk bad = Some Abort).
  { unfold verdict, linuxVerdict. now rewrite HL, Hbad. }
  split.
  - destruct (linux_cases P gc gk cmds loops m HL)
      as [[Hl _] | [(Hp & _) |
          (loop & rest & pre' & bad' & post' & f & _ & _ & _ & _ & ->)]].
    + congruence.
    + exfalso. rewrite Hs in Hp.
      exact (allPass_middle P gc gk pre bad post Abort Hp Hv).
    + reflexivity.
  - intros Hp. apply noneFails_allPass in Hp.
    destruct loops as [|loop rest]; [congruence|].
    rewrite (createListeners_linux_stop P gc gk cmds loop rest m pre bad post
               Abort HL Hs Hp Hv).
    rewrite realized_with_servers. cbn [outcome trace fst snd].
    split; [reflexivity|]. split; [|apply length_map].
    unfold linuxTrace. rewrite Hbad. cbn [negb].
    now exists (LogTrace "thread num=" (length (loop :: rest)) ::
                flat_map (linuxTrace P gc gk 0 loop) pre).
Qed.

(** The literal not-an-ip declared between two good listeners, two loops. *)
Lemma C6_unparseable_address_witness :
  is_linux (samplePlatform true true false) = true /\
  sampleLoops <> [] /\
  listeners_ brokenManager = [plainListener] ++ brokenListener :: [v6Listener]
  /\
  inet_pton (samplePlatform true true false)
    (contains ":"%char (ip_ brokenListener)) (ip_ brokenListener) = false /\
  noneFails (samplePlatform true true false) "" "" [plainListener] = true /\
  outcome (createListeners (samplePlatform true true false) "" "" globalCmds
             sampleLoops brokenManager) = Fatal Abort /\
  length (realized brokenManager
            (createListeners (samplePlatform true true false) "" ""
               globalCmds sampleLoops brokenManager)) = 1.
Proof.
  assert (Hne : sampleLoops <> []) by discriminate.
  refine (conj eq_refl (conj Hne (conj eq_refl (conj eq_refl
           (conj eq_refl _))))).
  destruct (C6_unparseable_address (samplePlatform true true false) "" ""
              globalCmds sampleLoops brokenManager) as [_ H].
  destruct (H eq_refl) as [_ H1].
  destruct (H1 Hne [plainListener] brokenListener [v6Listener] eq_refl eq_refl)
    as [_ H2].
  destruct (H2 eq_refl) as (Ho & _ & Hlen).
  exact (conj Ho Hlen).
Defined.

(** C6, as stated, fails: under the [__linux__] branch and without a
    worker loop, a declared listener whose literal does not parse is
    passed over and the run returns. *)
Lemma C6_counterexample : ~ unparseableIsFatal_always.
Proof.
  intros H.
  specialize (H (samplePlatform true true false) "" "" globalCmds []
                brokenManager brokenListener
                (or_intror (or_introl eq_refl)) eq_refl).
  vm_compute in H. discriminate.
Qed.

(** Under the other branch the literal is never checked: the run returns
    with an instance on the unspecified address. *)
Example C6_other_branch_keeps_unparsed_address :
  outcome (createListeners (samplePlatform false true false) "" "" globalCmds
             sampleLoops brokenManager) = Ok tt /\
  map (fun s => isUnspecified (srv_address s))
    (realized brokenManager
       (createListeners (samplePlatform false true false) "" "" globalCmds
          sampleLoops brokenManager)) = [false; true; false].
Proof. split; reflexivity. Qed.

(** ** Callbacks *)

(** Under the [__linux__] branch every instance carries the manager's
    three callbacks as they were when the run began. *)
Lemma linux_callbacks P gc gk cmds loops m s :
  is_linux P = true ->
  In s (realized m (createListeners P gc gk cmds loops m)) ->
  srv_beforeListenSockOpt s = beforeListenSetSockOptCallback_ m /\
  srv_afterAcceptSockOpt s = afterAcceptSetSockOptCallback_ m /\
  srv_connectionCallback s = connectionCallback_ m.
Proof.
  intros HL H. apply In_nth_error in H as [k H].
  apply realized_nth in H as (l & _ & Hs). rewrite HL in Hs.
  destruct Hs as (loop & _ & ->). repeat split.
Qed.

(** Under the other branch no instance carries any callback. *)
Lemma other_callbacks P gc gk cmds loops m s :
  is_linux P = false ->
  In s (realized m (createListeners P gc gk cmds loops m)) ->
  srv_beforeListenSockOpt s = None /\
  srv_afterAcceptSockOpt s = None /\
  srv_connectionCallback s = None.
Proof.
  intros HL H. apply In_nth_error in H as [k H].
  apply realized_nth in H as (l & _ & Hs). rewrite HL in Hs.
  destruct Hs as (_ & ->). repeat split.
Qed.

(** C7.  One listener is declared and the three callbacks are set
    through the setters of the manager before [createListeners] runs: the
    [__linux__] branch installs all three on the instance, the other
    branch installs none. *)
Theorem C7_other_branch_installs_no_callback :
  map (fun s => (srv_beforeListenSockOpt s, srv_afterAcceptSockOpt s,
                 srv_connectionCallback s))
    (realized (callbackManager (samplePlatform true true false))
       (createListeners (samplePlatform true true false) "" "" globalCmds
          [1] (callbackManager (samplePlatform true true false)))) =
  [(Some 7, Some 8, Some 9)] /\
  map (fun s => (srv_beforeListenSockOpt s, srv_afterAcceptSockOpt s,
                 srv_connectionCallback s))
    (realized (callbackManager (samplePlatform false true false))
       (createListeners (samplePlatform false true false) "" "" globalCmds
          [1] (callbackManager (samplePlatform false true false)))) =
  [(None, None, None)].
Proof. split; reflexivity. Qed.

(** ** The port test *)

Lemma linuxTrace_pass P gc gk i loop l :
  linuxVerdict P gc gk i l = None ->
  linuxTrace P gc gk i loop l = pairEvents P i loop l.
Proof.
  unfold linuxVerdict, linuxTrace, pairEvents, probeTrace, probes.
  destruct (negb (parseable P l)); [discriminate|].
  destruct (Nat.eqb i 0 && negb (reusePort P)); cbn [andb].
  - destruct (bindSucceeds P (listenAddressOf P l)); cbn [negb];
      [|discriminate].
    destruct (missingTlsMaterial P gc gk l); [discriminate|]. reflexivity.
  - destruct (missingTlsMaterial P gc gk l); [discriminate|]. reflexivity.
Qed.

Lemma linuxTraces_pass P gc gk i loop ls :
  forallb (fun l => passes (linuxVerdict P gc gk i l)) ls = true ->
  flat_map (linuxTrace P gc gk i loop) ls = flat_map (pairEvents P i loop) ls.
Proof.
  induction ls as [|l ls IH]; cbn [flat_map forallb]; [reflexivity|].
  intros H. apply andb_prop in H as [Hl Hls].
  destruct (linuxVerdict P gc gk i l) eqn:E; [discriminate|].
  now rewrite (linuxTrace_pass _ _ _ _ _ _ E), IH.
Qed.

Lemma linuxPasses_pairs P gc gk loops ls : forall i,
  forallb (fun l => passes (linuxVerdict P gc gk 0 l)) ls = true ->
  linuxPasses P gc gk i loops ls =
  flat_map (fun il => flat_map (pairEvents P (fst il) (snd il)) ls)
    (indexed i loops).
Proof.
  unfold indexed.
  induction loops as [|loop loops IH]; intros i H; cbn; [reflexivity|].
  rewrite (IH (S i) H).
  now rewrite (linuxTraces_pass P gc gk i loop ls (linux_pass_later _ _ _ i _ H)).
Qed.

(** C8, as amended.  One pass of the inner loop of the [__linux__]
    branch over a listener whose address parses makes the port test
    exactly when the loop index is 0 and port sharing is off.  The test
    takes the file lock exclusively, binds, and, unless the bind fails and
    ends the process, closes the test socket and releases the lock before
    the instance of that pass is constructed.  A run in which nothing
    fails (every address parses, every port test succeeds, no TLS material
    is missing) is the sequence of these passes, loop by loop and listener
    by listener. *)
Theorem C8_port_test P gc gk cmds :
  (forall i loop l m,
     inet_pton P (contains ":"%char (ip_ l)) (ip_ l) = true ->
     let r := linuxListener P gc gk cmds i loop l m in
     (existsb isPortTest (trace r) = true <->
      i = 0 /\ reusePort P = false) /\
     (i = 0 -> reusePort P = false ->
      if bindSucceeds P (listenAddressOf P l)
      then exists rest,
             trace r =
             [FileLock lock_path true;
              NewTcpServer (appLoop P) (listenAddressOf P l)
                "drogonPortTest" true false;
              DeleteTcpServer;
              FileUnlock;
              NewHttpServer loop (listenAddressOf P l) "drogon"] ++ rest /\
             (rest = [] \/ rest = [Stderr msg_no_cert])
      else outcome r = Fatal BindFailed /\
           trace r =
           [FileLock lock_path true;
            NewTcpServer (appLoop P) (listenAddressOf P l)
              "drogonPortTest" true false])) /\
  (forall loops m,
     is_linux P = true ->
     forallb (parseable P) (listeners_ m) = true ->
     probesSucceed P (listeners_ m) = true ->
     tlsMaterialPresent P gc gk (listeners_ m) = true ->
     trace (createListeners P gc gk cmds loops m) =
     LogTrace "thread num=" (length loops) ::
     flat_map (fun il =>
                 flat_map (pairEvents P (fst il) (snd il)) (listeners_ m))
       (indexed 0 loops)).
Proof.
  split.
  - intros i loop l m Hp r. subst r.
    rewrite <- parseable_pton in Hp.
    rewrite linuxListener_run.
    assert (Et : trace
                   match linuxVerdict P gc gk i l with
                   | Some f => (Fatal f, m, linuxTrace P gc gk i loop l)
                   | None =>
                       (Ok tt,
                        with_servers m [linuxInstance P m gc gk cmds loop l],
                        linuxTrace P gc gk i loop l)
                   end = linuxTrace P gc gk i loop l).
    { destruct (linuxVerdict P gc gk i l); reflexivity. }
    rewrite Et. clear Et.
    unfold linuxTrace, linuxVerdict, probeTrace, probes.
    rewrite Hp. cbn [negb]. split.
    + destruct i as [|i]; cbn [Nat.eqb andb].
      * destruct (reusePort P); cbn [negb].
        -- destruct (missingTlsMaterial P gc gk l); cbn; split;
             [discriminate | intros [_ H]; discriminate
             | discriminate | intros [_ H]; discriminate].
        -- cbn. split; auto.
      * destruct (missingTlsMaterial P gc gk l); cbn; split;
          [discriminate | intros [H _]; discriminate
          | discriminate | intros [H _]; discriminate].
    + intros -> Hr. rewrite Hr. cbn [Nat.eqb andb negb].
      destruct (bindSucceeds P (listenAddressOf P l)); cbn [negb].
      * destruct (missingTlsMaterial P gc gk l); cbn.
        -- exists [Stderr msg_no_cert]. auto.
        -- exists []. auto.
      * cbn. auto.
  - intros loops m HL Hp Hb Ht.
    pose proof (allPass_linux P gc gk _ HL Hp Hb Ht) as Ha.
    rewrite (createListeners_linux_pass P gc gk cmds loops m HL Ha).
    cbn [trace snd]. f_equal.
    apply linuxPasses_pairs.
    unfold allPass, verdict in Ha. now rewrite HL in Ha.
Qed.

(** The pass of loop index 0 tests the port; the pass of loop index 1 does not. *)
Lemma C8_port_test_witness :
  inet_pton (samplePlatform true true false)
    (contains ":"%char (ip_ plainListener)) (ip_ plainListener) = true /\
  trace (linuxListener (samplePlatform true true false) "" "" globalCmds 0 1
           plainListener sampleManager) =
  [FileLock lock_path true;
   NewTcpServer 100
     (listenAddressOf (samplePlatform true true false) plainListener)
     "drogonPortTest" true false;
   DeleteTcpServer;
   FileUnlock;
   NewHttpServer 1 (listenAddressOf (samplePlatform true true false)
                      plainListener) "drogon"] /\
  (existsb isPortTest
     (trace (linuxListener (samplePlatform true true false) "" "" globalCmds
               1 2 plainListener sampleManager)) = true <->
   1 = 0 /\ reusePort (samplePlatform true true false) = false).
Proof.
  refine (conj eq_refl (conj eq_refl _)).
  destruct (C8_port_test (samplePlatform true true false) "" "" globalCmds)
    as [H _].
  exact (proj1 (H 1 2 plainListener sampleManager eq_refl)).
Defined.

(** C8, as stated, fails: at loop index 0 with port sharing off, the
    pass over a listener whose literal does not parse logs it and aborts
    before the port test is reached, so no test is made. *)
Lemma C8_counterexample : ~ portTestAtFirstLoop_always.
Proof.
  intros H.
  destruct (H (samplePlatform true true false) "" "" globalCmds 0 1
              brokenListener sampleManager) as [_ H1].
  specialize (H1 (conj eq_refl eq_refl)).
  vm_compute in H1. discriminate.
Qed.

(** ** Stopping *)

Lemma forEach_emit {A} (f : A -> event) (l : list A) m :
  forEach l (fun x => emit (f x)) m = (Ok tt, m, map f l).
Proof.
  induction l as [|x l IH]; cbn [forEach map]; [reflexivity|].
  now rewrite bind_emit, IH.
Qed.

Lemma stopListening_run P ndebug m :
  stopListening P ndebug m =
  match listeningThread_ m with
  | None => (Ok tt, m, map ServerStop (servers_ m))
  | Some t =>
      if negb ndebug && isInLoopThread P (thread_loop t)
      then (Fatal AssertFailed, m, map ServerStop (servers_ m))
      else (Ok tt, m,
            map ServerStop (servers_ m) ++
            [LoopQuit (thread_loop t); ThreadWait t])
  end.
Proof.
  unfold stopListening. rewrite bind_get.
  rewrite (bind_ok _ _ m tt m (map ServerStop (servers_ m)))
    by apply forEach_emit.
  destruct (listeningThread_ m) as [t|]; cbn.
  - destruct (negb ndebug && isInLoopThread P (thread_loop t)); cbn.
    + now rewrite app_nil_r.
    + reflexivity.
  - now rewrite app_nil_r.
Qed.

Lemma stops_then_quit (ss : list HttpServer) q w pre loop post :
  map ServerStop ss ++ [LoopQuit q; w] = pre ++ LoopQuit loop :: post ->
  isLoopQuit w = false ->
  pre = map ServerStop ss /\ loop = q /\ post = [w].
Proof.
  revert pre. induction ss as [|s ss IH]; intros pre E Hw; cbn in E.
  - destruct pre as [|e pre]; cbn in E.
    + inversion E; subst. auto.
    + inversion E as [[He E']]. destruct pre as [|e' pre]; cbn in E'.
      * inversion E'; subst. discriminate.
      * inversion E' as [[He' E'']]. destruct pre; discriminate.
  - destruct pre as [|e pre]; cbn in E; [discriminate|].
    inversion E as [[He E']].
    destruct (IH pre E' Hw) as (-> & -> & ->). auto.
Qed.

(** C9.  [stopListening] first issues [stop] to every realized instance,
    in order.  With a dedicated listening thread it then tells the
    thread's loop to quit and waits for the thread before it returns, so
    that wherever the quit occurs in the trace, every stop comes before it
    and only the wait comes after.  The one exception is a call from the
    listening thread itself in a build that keeps the [assert]: it fails
    the assertion after the stops; with [NDEBUG] the same call goes on to
    quit and wait like any other.  Without a dedicated thread
    [stopListening] only stops the instances. *)
Theorem C9_stop_before_quit P ndebug m :
  let r := stopListening P ndebug m in
  (exists tail,
     trace r = map ServerStop (servers_ m) ++ tail /\
     match listeningThread_ m with
     | None => tail = [] /\ outcome r = Ok tt
     | Some t =>
         if negb ndebug && isInLoopThread P (thread_loop t)
         then tail = [] /\ outcome r = Fatal AssertFailed
         else tail = [LoopQuit (thread_loop t); ThreadWait t] /\
              outcome r = Ok tt
     end) /\
  (forall pre loop post,
     trace r = pre ++ LoopQuit loop :: post ->
     pre = map ServerStop (servers_ m) /\
     outcome r = Ok tt /\
     exists t,
       listeningThread_ m = Some t /\
       loop = thread_loop t /\
       post = [ThreadWait t]).
Proof.
  intros r. subst r. rewrite stopListening_run.
  destruct (listeningThread_ m) as [t|].
  - destruct (negb ndebug && isInLoopThread P (thread_loop t));
      cbn [trace outcome fst snd].
    + split.
      * exists []. now rewrite app_nil_r.
      * intros pre loop post E. exfalso.
        assert (H : existsb isLoopQuit (map ServerStop (servers_ m)) = true).
        { rewrite E, existsb_app. cbn. apply orb_true_r. }
        clear E. induction (servers_ m) as [|s ss IH]; cbn in H;
          [discriminate | auto].
    + split.
      * eexists. split; [reflexivity | split; reflexivity].
      * intros pre loop post E.
        apply stops_then_quit in E as (-> & -> & ->); [|reflexivity].
        repeat split. now exists t.
  - cbn [trace outcome fst snd]. split.
    + exists []. now rewrite app_nil_r.
    + intros pre loop post E. exfalso.
      assert (H : existsb isLoopQuit (map ServerStop (servers_ m)) = true).
      { rewrite E, existsb_app. cbn. apply orb_true_r. }
      clear E. induction (servers_ m) as [|s ss IH]; cbn in H;
        [discriminate | auto].
Qed.

(** Two instances and a listening thread, stopped from another thread in
    a build that keeps the assertion. *)
Lemma C9_stop_before_quit_witness :
  trace (stopListening (samplePlatform false true false) false
           runningManager) =
  map ServerStop (servers_ runningManager) ++
  [LoopQuit 200; ThreadWait (listeningThreadOf
                               (samplePlatform false true false))] /\
  exists tail,
    trace (stopListening (samplePlatform false true false) false
             runningManager) =
    map ServerStop (servers_ runningManager) ++ tail /\
    tail = [LoopQuit 200;
            ThreadWait (listeningThreadOf (samplePlatform false true false))]
    /\ outcome (stopListening (samplePlatform false true false) false
                  runningManager) = Ok tt.
Proof.
  split; [reflexivity|].
  exact (proj1 (C9_stop_before_quit (samplePlatform false true false) false
                  runningManager)).
Defined.

(** Called from the listening thread itself: with the assertion compiled
    in, the run stops at it, after the stops and before any quit; with
    [NDEBUG] it goes on to quit and wait. *)
Example stop_from_listening_thread :
  outcome (stopListening selfStopPlatform false runningManager) =
  Fatal AssertFailed /\
  trace (stopListening selfStopPlatform false runningManager) =
  map ServerStop (servers_ runningManager) /\
  outcome (stopListening selfStopPlatform true runningManager) = Ok tt /\
  trace (stopListening selfStopPlatform true runningManager) =
  map ServerStop (servers_ runningManager) ++
  [LoopQuit 200; ThreadWait (listeningThreadOf selfStopPlatform)].
Proof. repeat split. Qed.

(** ** No worker loop *)

(** Declaring listeners appends them and touches nothing else. *)
Lemma declareAll_run P ls : forall m,
  outcome (declareAll P ls m) = Ok tt /\
  final (declareAll P ls m) =
  mkListenerManager (listeners_ m ++ ls) (servers_ m) (listeningThread_ m)
    (beforeListenSetSockOptCallback_ m) (afterAcceptSetSockOptCallback_ m)
    (connectionCallback_ m).
Proof.
  unfold declareAll.
  induction ls as [|l ls IH]; intros m; cbn [forEach].
  - cbn. rewrite app_nil_r. now destruct m.
  - set (m1 := mkListenerManager (listeners_ m ++ [l]) (servers_ m)
                 (listeningThread_ m) (beforeListenSetSockOptCallback_ m)
                 (afterAcceptSetSockOptCallback_ m) (connectionCallback_ m)).
    assert (E : exists t,
              addListener P (ip_ l) (port_ l) (useSSL_ l) (certFile_ l)
                (keyFile_ l) (useOldTLS_ l) (sslConfCmds_ l) m =
              (Ok tt, m1, t)).
    { unfold addListener, listeners_emplace_back, bind, emit, ret.
      destruct l as [ip port ssl c k o cs]; cbn.
      destruct (ssl && negb (supportsTls P)); eexists; reflexivity. }
    destruct E as [t E]. rewrite (bind_ok _ _ _ _ _ _ E).
    destruct (IH m1) as (Ho & Hf).
    cbn [outcome final fst snd]. rewrite Hf. subst m1. cbn.
    rewrite <- app_assoc. auto.
Qed.

(** The sample managers are what [addListener] builds. *)
Lemma declared_by_addListener P ls :
  final (declareAll P ls newListenerManager) = declared ls None None None.
Proof. now destruct (declareAll_run P ls newListenerManager) as [_ ->]. Qed.

(** C10.  Under the [__linux__] branch, [createListeners] without a
    worker loop returns without touching the manager, whatever listeners
    are declared: no instance, no port test, no fatal end; a manager that
    had realized nothing still lists no address. *)
Theorem C10_no_worker_loop P gc gk cmds m :
  is_linux P = true ->
  servers_ m = [] ->
  let r := createListeners P gc gk cmds [] m in
  outcome r = Ok tt /\
  final r = m /\
  realized m r = [] /\
  existsb isPortTest (trace r) = false /\
  getListeners (final r) = [].
Proof.
  intros HL Hs r. subst r. rewrite (createListeners_linux_nil P gc gk cmds m HL).
  rewrite realized_same. cbn. unfold getListeners. rewrite Hs. auto.
Qed.

(** A malformed listener and one without TLS material, declared through addListener. *)
Lemma C10_no_worker_loop_witness :
  is_linux (samplePlatform true true false) = true /\
  servers_ (final (declareAll (samplePlatform true true false)
                     [brokenListener; inheritingListener]
                     newListenerManager)) = [] /\
  outcome (createListeners (samplePlatform true true false) "" "" globalCmds
             []
             (final (declareAll (samplePlatform true true false)
                       [brokenListener; inheritingListener]
                       newListenerManager))) = Ok tt /\
  getListeners
    (final (createListeners (samplePlatform true true false) "" ""
              globalCmds []
              (final (declareAll (samplePlatform true true false)
                        [brokenListener; inheritingListener]
                        newListenerManager)))) = [].
Proof.
  refine (conj eq_refl (conj eq_refl _)).
  destruct (C10_no_worker_loop (samplePlatform true true false) "" ""
              globalCmds
              (final (declareAll (samplePlatform true true false)
                        [brokenListener; inheritingListener]
                        newListenerManager)) eq_refl eq_refl)
    as (Ho & _ & _ & _ & Hg).
  exact (conj Ho Hg).
Defined.

(** * Further properties of the manager *)

(** ** Declaring listeners *)

Lemma addListener_run P l m :
  addListener P (ip_ l) (port_ l) (useSSL_ l) (certFile_ l) (keyFile_ l)
    (useOldTLS_ l) (sslConfCmds_ l) m =
  (Ok tt,
   mkListenerManager (listeners_ m ++ [l]) (servers_ m) (listeningThread_ m)
     (beforeListenSetSockOptCallback_ m) (afterAcceptSetSockOptCallback_ m)
     (connectionCallback_ m),
   if sslWithoutTls P l then [LogError msg_no_openssl] else []).
Proof.
  unfold addListener, sslWithoutTls, listeners_emplace_back, bind, emit, ret.
  destruct l as [ip port ssl c k o cs]; cbn.
  destruct (ssl && negb (supportsTls P)); reflexivity.
Qed.

Lemma count_app p t u : count p (t ++ u) = count p t + count p u.
Proof. unfold count. now rewrite filter_app, length_app. Qed.

(** X1.  Any sequence of [addListener] calls returns, appends the
    listeners in call order after those already declared, leaves the
    instances, the listening thread and the callbacks alone, and logs one
    error for each listener that asks for SSL on a build without TLS, which
    is stored all the same. *)
Theorem addListener_appends_in_order P ls m :
  outcome (declareAll P ls m) = Ok tt /\
  listeners_ (final (declareAll P ls m)) = listeners_ m ++ ls /\
  servers_ (final (declareAll P ls m)) = servers_ m /\
  listeningThread_ (final (declareAll P ls m)) = listeningThread_ m /\
  callbacksOf (final (declareAll P ls m)) = callbacksOf m /\
  count isLogError (trace (declareAll P ls m)) =
  length (filter (sslWithoutTls P) ls).
Proof.
  destruct (declareAll_run P ls m) as [Ho Hf].
  split; [exact Ho|]. rewrite Hf. cbn.
  repeat (split; [reflexivity|]).
  clear Ho Hf. revert m. unfold declareAll.
  induction ls as [|l ls IH]; intros m; cbn [forEach filter].
  - reflexivity.
  - rewrite (bind_ok _ _ _ _ _ _ (addListener_run P l m)).
    unfold trace at 1. cbn [snd]. rewrite count_app, IH.
    destruct (sslWithoutTls P l); reflexivity.
Qed.

(** ** What a run keeps *)

Ltac by_cases P gc gk cmds loops m HL :=
  destruct (is_linux P) eqn:HL;
  [ destruct (linux_cases P gc gk cmds loops m HL)
      as [[?Hnil ->] | [(?Hpass & ->) |
          (?loop & ?rest & ?pre & ?bad & ?post & ?f &
           ?Hloops & ?Hsplit & ?Hpre & ?Hbad & ->)]]
  | destruct (other_cases P gc gk cmds loops m HL)
      as [[?Hnil ->] | [(?Hne & ?Hpass & ->) |
          (?pre & ?bad & ?post & ?f & ?Hsplit & ?Hpre & ?Hbad & ->)]] ].

Lemma linux_thread_kept P gc gk cmds loops m :
  is_linux P = true ->
  listeningThread_ (final (createListeners P gc gk cmds loops m)) =
  listeningThread_ m.
Proof.
  intros HL.
  destruct (linux_cases P gc gk cmds loops m HL)
    as [[_ ->] | [(_ & ->) |
        (loop & rest & pre & bad & post & f & _ & _ & _ & _ & ->)]];
    reflexivity.
Qed.

(** X2.  Whatever its outcome, a run of [createListeners] leaves the
    declared listeners and the three callbacks as they were and never
    removes or replaces an instance realized before: [servers_] only grows
    at its end.  Under the [__linux__] branch it leaves the listening
    thread alone as well. *)
Theorem createListeners_keeps_configuration P gc gk cmds loops m :
  listeners_ (final (createListeners P gc gk cmds loops m)) = listeners_ m /\
  callbacksOf (final (createListeners P gc gk cmds loops m)) = callbacksOf m /\
  servers_ (final (createListeners P gc gk cmds loops m)) =
  servers_ m ++ realized m (createListeners P gc gk cmds loops m) /\
  (is_linux P = true ->
   listeningThread_ (final (createListeners P gc gk cmds loops m)) =
   listeningThread_ m).
Proof.
  by_cases P gc gk cmds loops m HL;
    rewrite ?realized_same, ?realized_with_servers, ?realized_with_thread;
    cbn; rewrite ?app_nil_r; repeat split; discriminate.
Qed.

(** ** When a run returns *)

Lemma allPass_noneFails P gc gk ls :
  allPass P gc gk ls = true -> noneFails P gc gk ls = true.
Proof.
  unfold allPass, noneFails, tlsMaterialPresent, probesSucceed, verdict,
    linuxVerdict, otherVerdict, probes.
  intros H. rewrite forallb_forall in H.
  destruct (is_linux P); cbn [negb orb].
  - assert (Hl : forall l, In l ls ->
              parseable P l = true /\
              (reusePort P = true \/
               bindSucceeds P (listenAddressOf P l) = true) /\
              missingTlsMaterial P gc gk l = false).
    { intros l Hl. specialize (H l Hl).
      destruct (parseable P l); cbn in H; [|discriminate].
      destruct (reusePort P); cbn in H.
      - destruct (missingTlsMaterial P gc gk l); [discriminate | auto].
      - destruct (bindSucceeds P (listenAddressOf P l)); cbn in H;
          [|discriminate].
        destruct (missingTlsMaterial P gc gk l); [discriminate | auto]. }
    apply andb_true_intro. split; [|apply andb_true_intro; split].
    + apply forallb_forall. intros l Hl'.
      destruct (Hl l Hl') as (_ & _ & ->). reflexivity.
    + apply forallb_forall. intros l Hl'. now destruct (Hl l Hl').
    + destruct (reusePort P) eqn:Hr; [reflexivity|]. cbn.
      apply forallb_forall. intros l Hl'.
      destruct (Hl l Hl') as (_ & [Hx|Hx] & _); [discriminate | exact Hx].
  - rewrite andb_true_r. apply forallb_forall. intros l Hl.
    specialize (H l Hl).
    destruct (missingTlsMaterial P gc gk l); [discriminate | reflexivity].
Qed.

(** X3.  With at least one worker loop under the [__linux__] branch, and
    always under the other branch, [createListeners] returns if and only
    if no declared listener fails: none asks for TLS on a TLS build without
    certificate and key and, under the [__linux__] branch, every address
    parses and every port test succeeds. *)
Theorem createListeners_returns_iff P gc gk cmds loops m :
  (is_linux P = true -> loops <> []) ->
  (outcome (createListeners P gc gk cmds loops m) = Ok tt <->
   noneFails P gc gk (listeners_ m) = true).
Proof.
  intros Hloops. split.
  - by_cases P gc gk cmds loops m HL; cbn [outcome fst]; intros Ho;
      try discriminate.
    + now destruct (Hloops eq_refl).
    + now apply allPass_noneFails.
    + rewrite Hnil. unfold noneFails. now rewrite HL.
    + now apply allPass_noneFails.
  - intros H. apply noneFails_allPass in H.
    destruct (is_linux P) eqn:HL.
    + now rewrite (createListeners_linux_pass P gc gk cmds loops m HL H).
    + destruct (listeners_ m) as [|l ls] eqn:E.
      * now rewrite (createListeners_other_nil P gc gk cmds loops m HL E).
      * rewrite <- E in H.
        rewrite (createListeners_other_pass P gc gk cmds loops m HL); auto.
        congruence.
Qed.

(** Port 80 is taken: the run does not return, and a listener fails. *)
Lemma createListeners_returns_iff_witness :
  (is_linux busyPlatform = true -> sampleLoops <> []) /\
  (outcome (createListeners busyPlatform "g.crt" "g.key" globalCmds
              sampleLoops sampleManager) = Ok tt <->
   noneFails busyPlatform "g.crt" "g.key" (listeners_ sampleManager) = true)
  /\
  noneFails busyPlatform "g.crt" "g.key" (listeners_ sampleManager) = false.
Proof.
  assert (H : is_linux busyPlatform = true -> sampleLoops <> [])
    by (intros _; discriminate).
  refine (conj H (conj _ eq_refl)).
  exact (createListeners_returns_iff busyPlatform "g.crt" "g.key" globalCmds
           sampleLoops sampleManager H).
Defined.

(** ** How a run can end *)

Lemma length_prefix_lt {A} (pre : list A) bad post :
  length pre < length (pre ++ bad :: post).
Proof. rewrite length_app. cbn. lia. Qed.

(** X4.  A fatal end is met in the pass of the first loop or not at all:
    the instances realized by a run that does not return are fewer than
    the declared listeners, and under the [__linux__] branch all of them
    sit on worker loop 0.  No instance of a later loop exists when the
    process dies. *)
Theorem fatal_end_in_first_pass P gc gk cmds loops m :
  isFatal (outcome (createListeners P gc gk cmds loops m)) = true ->
  length (realized m (createListeners P gc gk cmds loops m)) <
  length (listeners_ m) /\
  (is_linux P = true ->
   exists loop,
     nth_error loops 0 = Some loop /\
     forall s,
       In s (realized m (createListeners P gc gk cmds loops m)) ->
       srv_loop s = loop).
Proof.
  by_cases P gc gk cmds loops m HL; cbn [outcome fst isFatal]; intros Hf;
    try discriminate.
  - rewrite realized_with_servers, Hsplit, length_map.
    split; [apply length_prefix_lt|]. intros _.
    exists loop. rewrite Hloops. split; [reflexivity|].
    intros s Hs. apply in_map_iff in Hs as (l & <- & _). reflexivity.
  - rewrite realized_with_thread, Hsplit, length_map.
    split; [apply length_prefix_lt | discriminate].
Qed.

(** Two loops, and the literal not-an-ip declared second. *)
Lemma fatal_end_in_first_pass_witness :
  isFatal (outcome (createListeners (samplePlatform true true false) "" ""
                      globalCmds sampleLoops brokenManager)) = true /\
  length (realized brokenManager
            (createListeners (samplePlatform true true false) "" ""
               globalCmds sampleLoops brokenManager)) <
  length (listeners_ brokenManager).
Proof.
  split; [reflexivity|].
  exact (proj1 (fatal_end_in_first_pass (samplePlatform true true false)
                  "" "" globalCmds sampleLoops brokenManager eq_refl)).
Defined.

Lemma linuxVerdict_kinds P gc gk i l f :
  linuxVerdict P gc gk i l = Some f ->
  (f = Abort /\ parseable P l = false) \/
  (f = BindFailed /\ reusePort P = false /\ i = 0 /\
   bindSucceeds P (listenAddressOf P l) = false) \/
  (f = Exit 1 /\ missingTlsMaterial P gc gk l = true).
Proof.
  unfold linuxVerdict, probes.
  destruct (parseable P l); cbn [negb].
  - destruct i as [|i]; cbn [Nat.eqb andb].
    + destruct (reusePort P); cbn [negb andb].
      * destruct (missingTlsMaterial P gc gk l); [|discriminate].
        intros [= <-]. auto.
      * destruct (bindSucceeds P (listenAddressOf P l)); cbn [negb].
        -- destruct (missingTlsMaterial P gc gk l); [|discriminate].
           intros [= <-]. auto.
        -- intros [= <-]. right; left. auto.
    + destruct (missingTlsMaterial P gc gk l); [|discriminate].
      intros [= <-]. auto.
  - intros [= <-]. auto.
Qed.

Lemma verdict_kinds P gc gk l f :
  verdict P gc gk l = Some f ->
  (f = Exit 1 /\ missingTlsMaterial P gc gk l = true) \/
  (is_linux P = true /\
   ((f = Abort /\ parseable P l = false) \/
    (f = BindFailed /\ reusePort P = false /\
     bindSucceeds P (listenAddressOf P l) = false))).
Proof.
  unfold verdict. destruct (is_linux P).
  - intros H. apply linuxVerdict_kinds in H
      as [[-> H] | [(-> & Hr & _ & Hb) | [-> H]]].
    + right. split; [reflexivity|]. left. auto.
    + right. split; [reflexivity|]. right. auto.
    + left. auto.
  - unfold otherVerdict.
    destruct (missingTlsMaterial P gc gk l) eqn:E; [|discriminate].
    intros [= <-]. auto.
Qed.

(** A run that does not return ends with the verdict of a declared
    listener. *)
Lemma fatal_end_verdict P gc gk cmds loops m f :
  outcome (createListeners P gc gk cmds loops m) = Fatal f ->
  exists bad, In bad (listeners_ m) /\ verdict P gc gk bad = Some f.
Proof.
  by_cases P gc gk cmds loops m HL; cbn [outcome fst]; intros Ho;
    try discriminate; injection Ho as ->; exists bad;
    (split; [rewrite Hsplit; apply in_or_app; right; now left | exact Hbad]).
Qed.

(** X5.  The only ways [createListeners] ends the process are [exit(1)],
    under either branch and only on a build with TLS, and, under the
    [__linux__] branch alone, [abort()] and the failed bind of a port test,
    the latter only with port sharing off.  The other branch never
    aborts, and no run exits with a status other than 1. *)
Theorem createListeners_fatal_ends P gc gk cmds loops m f :
  outcome (createListeners P gc gk cmds loops m) = Fatal f ->
  (f = Exit 1 /\ supportsTls P = true) \/
  (is_linux P = true /\
   (f = Abort \/ (f = BindFailed /\ reusePort P = false))).
Proof.
  intros Ho. apply fatal_end_verdict in Ho as (bad & _ & Hb).
  apply verdict_kinds in Hb as [[-> Hm] | (HL & [[-> _] | (-> & Hr & _)])];
    auto.
  left. split; [reflexivity|].
  unfold missingTlsMaterial, wantsTls in Hm.
  destruct (supportsTls P); [reflexivity|].
  rewrite andb_false_r in Hm. discriminate.
Qed.

(** Port 80 is taken and port sharing is off. *)
Lemma createListeners_fatal_ends_witness :
  outcome (createListeners busyPlatform "" "" globalCmds sampleLoops
             (declared [plainListener] None None None)) = Fatal BindFailed /\
  ((BindFailed = Exit 1 /\ supportsTls busyPlatform = true) \/
   (is_linux busyPlatform = true /\
    (BindFailed = Abort \/
     (BindFailed = BindFailed /\ reusePort busyPlatform = false)))).
Proof.
  split; [reflexivity|].
  exact (createListeners_fatal_ends busyPlatform "" "" globalCmds sampleLoops
           (declared [plainListener] None None None) BindFailed eq_refl).
Defined.

(** ** TLS policies of realized instances *)

Lemma allPass_material P gc gk ls l :
  allPass P gc gk ls = true -> In l ls ->
  missingTlsMaterial P gc gk l = false.
Proof.
  intros H Hl. apply allPass_noneFails in H.
  unfold noneFails in H. apply andb_prop in H as [H _].
  unfold tlsMaterialPresent in H. rewrite forallb_forall in H.
  now apply negb_true_iff, H.
Qed.

(** Every realized instance was built for a listener that has the TLS
    material it needs. *)
Lemma realized_passing P gc gk cmds loops m s :
  In s (realized m (createListeners P gc gk cmds loops m)) ->
  exists l,
    In l (listeners_ m) /\
    missingTlsMaterial P gc gk l = false /\
    srv_sslPolicy s =
    if is_linux P then linuxPolicy P gc gk cmds l
    else otherPolicy P gc gk cmds l.
Proof.
  by_cases P gc gk cmds loops m HL;
    rewrite ?realized_same, ?realized_with_servers, ?realized_with_thread;
    try (intros []); unfold topology; rewrite ?HL; intros Hs.
  - apply in_flat_map in Hs as (loop & _ & Hs).
    apply in_map_iff in Hs as (l & <- & Hl). exists l.
    split; [exact Hl|]. split; [|reflexivity].
    now apply (allPass_material P gc gk (listeners_ m)).
  - apply in_map_iff in Hs as (l & <- & Hl). exists l.
    split; [rewrite Hsplit; apply in_or_app; now left|].
    split; [|reflexivity]. now apply (allPass_material P gc gk pre).
  - apply in_map_iff in Hs as (l & <- & Hl). exists l.
    split; [exact Hl|]. split; [|reflexivity].
    now apply (allPass_material P gc gk (listeners_ m)).
  - apply in_map_iff in Hs as (l & <- & Hl). exists l.
    split; [rewrite Hsplit; apply in_or_app; now left|].
    split; [|reflexivity]. now apply (allPass_material P gc gk pre).
Qed.

(** X6.  No instance is ever TLS-enabled with an empty certificate path
    or an empty key path: whatever the run and its outcome, the policy of a
    realized instance names both files. *)
Theorem tls_instances_have_material P gc gk cmds loops m s p :
  In s (realized m (createListeners P gc gk cmds loops m)) ->
  srv_sslPolicy s = Some p ->
  empty (certPath p) = false /\ empty (keyPath p) = false.
Proof.
  intros Hs Hp. apply realized_passing in Hs as (l & _ & Hm & E).
  rewrite Hp in E. unfold missingTlsMaterial in Hm.
  assert (K : wantsTls P l = true /\
              certPath p = effectiveCert gc l /\
              keyPath p = effectiveKey gk l).
  { unfold linuxPolicy, otherPolicy in E.
    destruct (is_linux P), (wantsTls P l); try discriminate;
      injection E as ->; auto. }
  destruct K as (Hw & -> & ->). rewrite Hw in Hm. cbn in Hm.
  now apply orb_false_elim in Hm.
Qed.

(** The second listener inherits the global certificate and key. *)
Lemma tls_instances_have_material_witness :
  exists s p,
    In s (realized mixedTlsManager
            (createListeners (samplePlatform true true false) "g.crt" "g.key"
               globalCmds [1] mixedTlsManager)) /\
    srv_sslPolicy s = Some p /\
    certPath p = "g.crt" /\
    empty (certPath p) = false /\ empty (keyPath p) = false.
Proof.
  eexists. eexists.
  assert (Hin : In (linuxInstance (samplePlatform true true false)
                      mixedTlsManager "g.crt" "g.key" globalCmds 1
                      inheritingListener)
                  (realized mixedTlsManager
                     (createListeners (samplePlatform true true false)
                        "g.crt" "g.key" globalCmds [1] mixedTlsManager)))
    by (vm_compute; right; left; reflexivity).
  refine (conj Hin (conj eq_refl (conj eq_refl _))).
  exact (tls_instances_have_material (samplePlatform true true false)
           "g.crt" "g.key" globalCmds [1] mixedTlsManager _ _ Hin eq_refl).
Defined.

(** X7.  An instance is TLS-enabled exactly when its listener asks for
    SSL and the build has TLS, and then its policy takes the legacy
    protocol flag of that listener and of no other. *)
Theorem tls_enabled_when_asked P gc gk cmds loops m k s :
  nth_error (realized m (createListeners P gc gk cmds loops m)) k = Some s ->
  exists l,
    nth_error (listeners_ m) (k mod length (listeners_ m)) = Some l /\
    tlsEnabled s = useSSL_ l && supportsTls P /\
    forall p, srv_sslPolicy s = Some p -> useOldTLS p = useOldTLS_ l.
Proof.
  intros H. apply realized_nth in H as (l & Hl & Hs). exists l.
  split; [exact Hl|].
  assert (E : srv_sslPolicy s =
              if wantsTls P l
              then Some (mkTLSPolicy (effectiveCert gc l) (effectiveKey gk l)
                           (if is_linux P then cmds ++ sslConfCmds_ l
                            else cmds) (useOldTLS_ l))
              else None).
  { destruct (is_linux P).
    - destruct Hs as (loop & _ & ->). reflexivity.
    - destruct Hs as (_ & ->). reflexivity. }
  unfold tlsEnabled. rewrite E. fold (wantsTls P l).
  destruct (wantsTls P l); split; try reflexivity.
  - intros p [= <-]. reflexivity.
  - discriminate.
Qed.

(** The listener with legacy protocols on, behind one without. *)
Lemma tls_enabled_when_asked_witness :
  exists s,
    nth_error
      (realized mixedTlsManager
         (createListeners (samplePlatform false true false) "g.crt" "g.key"
            globalCmds sampleLoops mixedTlsManager)) 1 = Some s /\
    exists l,
      nth_error (listeners_ mixedTlsManager)
        (1 mod length (listeners_ mixedTlsManager)) = Some l /\
      tlsEnabled s = useSSL_ l && supportsTls (samplePlatform false true false)
      /\
      forall p, srv_sslPolicy s = Some p -> useOldTLS p = useOldTLS_ l.
Proof.
  eexists. split; [reflexivity|].
  apply (tls_enabled_when_asked (samplePlatform false true false)
           "g.crt" "g.key" globalCmds sampleLoops mixedTlsManager 1).
  reflexivity.
Defined.

(** X8.  On a build without TLS no run exits for missing material and no
    instance is TLS-enabled, also for listeners declared with SSL; under
    the other branch every run then returns with one instance per
    listener. *)
Theorem without_tls_nothing_is_encrypted P gc gk cmds loops m :
  supportsTls P = false ->
  endedInExit (outcome (createListeners P gc gk cmds loops m)) = false /\
  (forall s,
     In s (realized m (createListeners P gc gk cmds loops m)) ->
     srv_sslPolicy s = None) /\
  (is_linux P = false ->
   outcome (createListeners P gc gk cmds loops m) = Ok tt /\
   length (realized m (createListeners P gc gk cmds loops m)) =
   length (listeners_ m)).
Proof.
  intros Ht.
  assert (Hw : forall l, wantsTls P l = false).
  { intros l. unfold wantsTls. rewrite Ht. apply andb_false_r. }
  split; [|split].
  - destruct (outcome (createListeners P gc gk cmds loops m)) as [u|f] eqn:E;
      [reflexivity|].
    apply fatal_end_verdict in E as (bad & _ & Hb).
    apply verdict_kinds in Hb as [[-> Hm] | (_ & [[-> _] | (-> & _)])];
      [|reflexivity|reflexivity].
    unfold missingTlsMaterial in Hm. rewrite Hw in Hm. discriminate.
  - intros s Hs. apply realized_passing in Hs as (l & _ & _ & ->).
    unfold linuxPolicy, otherPolicy. rewrite Hw. now destruct (is_linux P).
  - intros HL.
    assert (Ha : allPass P gc gk (listeners_ m) = true).
    { apply allPass_other; [exact HL|]. unfold tlsMaterialPresent.
      apply forallb_forall. intros l _. unfold missingTlsMaterial.
      now rewrite Hw. }
    destruct (listeners_ m) as [|l ls] eqn:E.
    + rewrite (createListeners_other_nil P gc gk cmds loops m HL E).
      now rewrite realized_same.
    + rewrite <- E in *.
      rewrite (createListeners_other_pass P gc gk cmds loops m HL);
        [|congruence|exact Ha].
      rewrite realized_with_thread. unfold topology. rewrite HL.
      now rewrite length_map.
Qed.

(** A listener declared with SSL and no certificate, on a build without
    TLS. *)
Lemma without_tls_nothing_is_encrypted_witness :
  supportsTls (plainPlatform false) = false /\
  outcome (createListeners (plainPlatform false) "" "" globalCmds sampleLoops
             mixedTlsManager) = Ok tt /\
  forall s,
    In s (realized mixedTlsManager
            (createListeners (plainPlatform false) "" "" globalCmds
               sampleLoops mixedTlsManager)) ->
    srv_sslPolicy s = None.
Proof.
  split; [reflexivity|].
  destruct (without_tls_nothing_is_encrypted (plainPlatform false) "" ""
              globalCmds sampleLoops mixedTlsManager eq_refl)
    as (_ & Hn & Hr).
  exact (conj (proj1 (Hr eq_refl)) Hn).
Defined.

(** ** Counting the events of a run *)

Lemma count_cons p e t : count p (e :: t) = oneIf (p e) + count p t.
Proof. unfold count, oneIf. cbn. now destruct (p e). Qed.

Lemma count_flat_map_const {A} p (f : A -> list event) c ls :
  (forall l, In l ls -> count p (f l) = c) ->
  count p (flat_map f ls) = c * length ls.
Proof.
  induction ls as [|l ls IH]; intros H; cbn [flat_map length].
  - now rewrite Nat.mul_0_r.
  - rewrite count_app, H by now left.
    rewrite IH by (intros x Hx; apply H; now right). lia.
Qed.

Section PortTestEvents.

(** One of the four kinds of event the port test emits once each. *)
Variable p : event -> bool.
Variable P : Platform.
Hypothesis p_pair : forall i loop l,
  count p (pairEvents P i loop l) = oneIf (probes P i).

Lemma count_passes_pair gc gk i loop ls :
  forallb (fun l => passes (linuxVerdict P gc gk i l)) ls = true ->
  count p (flat_map (linuxTrace P gc gk i loop) ls) =
  oneIf (probes P i) * length ls.
Proof.
  intros H. rewrite (linuxTraces_pass P gc gk i loop ls H).
  apply count_flat_map_const. intros l _. apply p_pair.
Qed.

Lemma count_later_passes gc gk loops ls : forall i,
  forallb (fun l => passes (linuxVerdict P gc gk 0 l)) ls = true ->
  count p (linuxPasses P gc gk (S i) loops ls) = 0.
Proof.
  induction loops as [|loop loops IH]; intros i H; cbn [linuxPasses].
  - reflexivity.
  - rewrite count_app, (IH (S i) H).
    rewrite (count_passes_pair gc gk (S i) loop ls
               (linux_pass_later _ _ _ (S i) _ H)).
    reflexivity.
Qed.

Lemma count_all_passes gc gk loops ls :
  forallb (fun l => passes (linuxVerdict P gc gk 0 l)) ls = true ->
  count p (linuxPasses P gc gk 0 loops ls) =
  match loops with
  | [] => 0
  | _ :: _ => oneIf (probes P 0) * length ls
  end.
Proof.
  intros H. destruct loops as [|loop loops]; cbn [linuxPasses].
  - reflexivity.
  - rewrite count_app, (count_later_passes gc gk loops ls 0 H).
    rewrite (count_passes_pair gc gk 0 loop ls H). lia.
Qed.

End PortTestEvents.

Lemma pair_locks P i loop l :
  count isFileLock (pairEvents P i loop l) = oneIf (probes P i).
Proof.
  unfold pairEvents, probes.
  now destruct (Nat.eqb i 0 && negb (reusePort P)).
Qed.

Lemma pair_unlocks P i loop l :
  count isFileUnlock (pairEvents P i loop l) = oneIf (probes P i).
Proof.
  unfold pairEvents, probes.
  now destruct (Nat.eqb i 0 && negb (reusePort P)).
Qed.

Lemma pair_tests P i loop l :
  count isPortTest (pairEvents P i loop l) = oneIf (probes P i).
Proof.
  unfold pairEvents, probes.
  now destruct (Nat.eqb i 0 && negb (reusePort P)).
Qed.

Lemma pair_closes P i loop l :
  count isDeleteTcpServer (pairEvents P i loop l) = oneIf (probes P i).
Proof.
  unfold pairEvents, probes.
  now destruct (Nat.eqb i 0 && negb (reusePort P)).
Qed.

Lemma pair_servers P i loop l :
  count isNewHttpServer (pairEvents P i loop l) = 1.
Proof.
  unfold pairEvents.
  now destruct (Nat.eqb i 0 && negb (reusePort P)).
Qed.

(** The events of the pass that ends the run. *)
Lemma failing_pass_counts P gc gk loop l f :
  linuxVerdict P gc gk 0 l = Some f ->
  count isFileLock (linuxTrace P gc gk 0 loop l) =
  count isPortTest (linuxTrace P gc gk 0 loop l) /\
  count isFileUnlock (linuxTrace P gc gk 0 loop l) =
  count isDeleteTcpServer (linuxTrace P gc gk 0 loop l) /\
  count isFileLock (linuxTrace P gc gk 0 loop l) =
  count isFileUnlock (linuxTrace P gc gk 0 loop l) +
  oneIf (endedInPortTest (Fatal f)) /\
  count isPortTest (linuxTrace P gc gk 0 loop l) <= oneIf (probes P 0) /\
  count isNewHttpServer (linuxTrace P gc gk 0 loop l) =
  oneIf (endedInExit (Fatal f)).
Proof.
  unfold linuxVerdict, linuxTrace, probeTrace, probes.
  destruct (parseable P l); cbn [negb Nat.eqb andb].
  - destruct (reusePort P); cbn [negb andb].
    + destruct (missingTlsMaterial P gc gk l); [|discriminate].
      intros [= <-]. cbn. repeat split; lia.
    + destruct (bindSucceeds P (listenAddressOf P l)); cbn [negb].
      * destruct (missingTlsMaterial P gc gk l); [|discriminate].
        intros [= <-]. cbn. repeat split; lia.
      * intros [= <-]. cbn. repeat split; lia.
  - intros [= <-]. cbn. repeat split; lia.
Qed.

Lemma other_counts P gc gk ls p :
  (forall loop a name, p (NewHttpServer loop a name) = false) ->
  p (Stderr msg_no_cert) = false ->
  count p (flat_map (otherTrace P gc gk) ls) = 0.
Proof.
  intros Hh Hs. rewrite (count_flat_map_const p _ 0); [reflexivity|].
  intros l _. unfold otherTrace, count. cbn. rewrite Hh.
  destruct (missingTlsMaterial P gc gk l); cbn; now rewrite ?Hs.
Qed.

Lemma other_count P gc gk l p :
  (forall loop a name, p (NewHttpServer loop a name) = false) ->
  p (Stderr msg_no_cert) = false ->
  count p (otherTrace P gc gk l) = 0.
Proof.
  intros Hh Hs. unfold otherTrace, count. cbn. rewrite Hh.
  destruct (missingTlsMaterial P gc gk l); cbn; now rewrite ?Hs.
Qed.

Lemma allPass_linux0 P gc gk ls :
  is_linux P = true ->
  allPass P gc gk ls = true ->
  forallb (fun l => passes (linuxVerdict P gc gk 0 l)) ls = true.
Proof. unfold allPass, verdict. now intros ->. Qed.

Lemma verdict_linux0 P gc gk l f :
  is_linux P = true ->
  verdict P gc gk l = Some f -> linuxVerdict P gc gk 0 l = Some f.
Proof. unfold verdict. now intros ->. Qed.

(** X9.  The file lock and the port test go together in every run,
    whatever its outcome: the lock is taken once for each test bind and
    released once for each test server destroyed, and it is held at the
    end of the run only when the process dies inside a test bind.  A run
    makes at most the tests that are due (one per listener in the pass of
    loop 0 under the [__linux__] branch with port sharing off, none
    otherwise), and a run that returns makes exactly those. *)
Theorem port_test_lock_discipline P gc gk cmds loops m :
  count isFileLock (trace (createListeners P gc gk cmds loops m)) =
  count isPortTest (trace (createListeners P gc gk cmds loops m)) /\
  count isFileUnlock (trace (createListeners P gc gk cmds loops m)) =
  count isDeleteTcpServer (trace (createListeners P gc gk cmds loops m)) /\
  count isFileLock (trace (createListeners P gc gk cmds loops m)) =
  count isFileUnlock (trace (createListeners P gc gk cmds loops m)) +
  oneIf (endedInPortTest (outcome (createListeners P gc gk cmds loops m))) /\
  count isPortTest (trace (createListeners P gc gk cmds loops m)) <=
  portTestsDue P loops m /\
  (outcome (createListeners P gc gk cmds loops m) = Ok tt ->
   count isPortTest (trace (createListeners P gc gk cmds loops m)) =
   portTestsDue P loops m).
Proof.
  unfold portTestsDue.
  by_cases P gc gk cmds loops m HL; cbn [trace outcome fst snd];
    rewrite ?count_cons; cbn [oneIf isFileLock isFileUnlock isPortTest
                               isDeleteTcpServer endedInPortTest andb negb].
  - rewrite Hnil. destruct (reusePort P); cbn; repeat split; lia.
  - pose proof (allPass_linux0 P gc gk _ HL Hpass) as H0.
    rewrite (count_all_passes isFileLock P (pair_locks P) gc gk loops _ H0).
    rewrite (count_all_passes isFileUnlock P (pair_unlocks P) gc gk loops _ H0).
    rewrite (count_all_passes isPortTest P (pair_tests P) gc gk loops _ H0).
    rewrite (count_all_passes isDeleteTcpServer P (pair_closes P) gc gk loops
               _ H0).
    unfold probes. cbn [Nat.eqb andb].
    destruct (reusePort P), loops; cbn [negb oneIf]; repeat split; lia.
  - pose proof (allPass_linux0 P gc gk _ HL Hpre) as H0.
    destruct (failing_pass_counts P gc gk loop bad f
                (verdict_linux0 P gc gk bad f HL Hbad))
      as (E1 & E2 & E3 & E4 & _).
    cbn [endedInPortTest] in E3.
    rewrite !count_app.
    rewrite (count_passes_pair isFileLock P (pair_locks P) gc gk 0 loop pre H0).
    rewrite (count_passes_pair isFileUnlock P (pair_unlocks P) gc gk 0 loop
               pre H0).
    rewrite (count_passes_pair isPortTest P (pair_tests P) gc gk 0 loop pre H0).
    rewrite (count_passes_pair isDeleteTcpServer P (pair_closes P) gc gk 0
               loop pre H0).
    rewrite Hloops, Hsplit, length_app. cbn [length].
    unfold probes in *. cbn [Nat.eqb andb] in *.
    destruct (reusePort P); cbn [negb oneIf] in *;
      (split; [lia|]); (split; [lia|]); (split; [lia|]);
      (split; [lia | discriminate]).
  - cbn. repeat split; lia.
  - rewrite !other_counts by reflexivity. repeat split; lia.
  - rewrite !count_app, !other_counts, !other_count by reflexivity.
    (split; [lia|]); (split; [lia|]); (split; [|split; [lia|discriminate]]).
    apply verdict_kinds in Hbad as [[-> _] | (H & _)]; [cbn; lia|congruence].
Qed.

Lemma linuxTrace_portTestEvent P gc gk i loop ls l :
  In l ls -> Forall (portTestEvent P ls) (linuxTrace P gc gk i loop l).
Proof.
  intros Hl. unfold linuxTrace, probeTrace.
  destruct (parseable P l) eqn:Hp; cbn [negb].
  - assert (Hu : isUnspecified (listenAddressOf P l) = false)
      by now apply negb_true_iff.
    assert (Ht : portTestEvent P ls
                   (NewTcpServer (appLoop P) (listenAddressOf P l)
                      "drogonPortTest" true false)).
    { cbn. repeat split; try exact Hu. now exists l. }
    destruct (probes P i); cbn [andb app].
    + destruct (bindSucceeds P (listenAddressOf P l)); cbn [negb app];
        [destruct (missingTlsMaterial P gc gk l)|];
        repeat (apply Forall_cons;
                [first [exact Ht | exact I | split; reflexivity]|]);
        apply Forall_nil.
    + destruct (missingTlsMaterial P gc gk l);
        repeat (apply Forall_cons; [exact I|]); apply Forall_nil.
  - apply Forall_cons; [exact I | apply Forall_nil].
Qed.

Lemma Forall_flat_map_in {A B} (Q : B -> Prop) (f : A -> list B) ls :
  (forall l, In l ls -> Forall Q (f l)) -> Forall Q (flat_map f ls).
Proof.
  induction ls as [|l ls IH]; intros H; cbn [flat_map]; [constructor|].
  apply Forall_app. split; [apply H; now left|].
  apply IH. intros x Hx. apply H. now right.
Qed.

Lemma linuxPasses_portTestEvent P gc gk loops ls : forall i,
  Forall (portTestEvent P ls) (linuxPasses P gc gk i loops ls).
Proof.
  induction loops as [|loop loops IH]; intros i; cbn [linuxPasses];
    [constructor|].
  apply Forall_app. split; [|apply IH].
  apply Forall_flat_map_in. intros l Hl.
  now apply linuxTrace_portTestEvent.
Qed.

Lemma otherTrace_portTestEvent P gc gk ls l :
  Forall (portTestEvent P ls) (otherTrace P gc gk l).
Proof.
  unfold otherTrace.
  destruct (missingTlsMaterial P gc gk l);
    repeat (apply Forall_cons; [exact I|]); apply Forall_nil.
Qed.

(** X10.  In every run, whatever its outcome, each lock taken is the
    exclusive lock on [/tmp/drogon.lock], and each test server is built on
    the loop of the application, named drogonPortTest, with address reuse
    on and port sharing off, for the address of a declared listener that
    did parse: no port is ever tested on an unparsed address. *)
Theorem port_test_events_are_well_formed P gc gk cmds loops m e :
  In e (trace (createListeners P gc gk cmds loops m)) ->
  portTestEvent P (listeners_ m) e.
Proof.
  revert e. apply Forall_forall.
  by_cases P gc gk cmds loops m HL; cbn [trace snd];
    repeat (apply Forall_cons; [exact I|]); try apply Forall_nil.
  - apply linuxPasses_portTestEvent.
  - apply Forall_app. split.
    + apply Forall_flat_map_in. intros l Hl.
      apply linuxTrace_portTestEvent. rewrite Hsplit.
      apply in_or_app. now left.
    + apply linuxTrace_portTestEvent. rewrite Hsplit.
      apply in_or_app. right. now left.
  - apply Forall_flat_map_in. intros l _. apply otherTrace_portTestEvent.
  - apply Forall_app. split.
    + apply Forall_flat_map_in. intros l _. apply otherTrace_portTestEvent.
    + apply otherTrace_portTestEvent.
Qed.

(** The test of the first listener of the sample manager. *)
Lemma port_test_events_are_well_formed_witness :
  In (NewTcpServer 100
        (listenAddressOf (samplePlatform true true false) plainListener)
        "drogonPortTest" true false)
    (trace (createListeners (samplePlatform true true false) "g.crt" "g.key"
              globalCmds sampleLoops sampleManager)) /\
  portTestEvent (samplePlatform true true false) (listeners_ sampleManager)
    (NewTcpServer 100
       (listenAddressOf (samplePlatform true true false) plainListener)
       "drogonPortTest" true false).
Proof.
  assert (Hin : In (NewTcpServer 100
                      (listenAddressOf (samplePlatform true true false)
                         plainListener) "drogonPortTest" true false)
                  (trace (createListeners (samplePlatform true true false)
                            "g.crt" "g.key" globalCmds sampleLoops
                            sampleManager)))
    by (vm_compute; right; right; left; reflexivity).
  split; [exact Hin|].
  exact (port_test_events_are_well_formed (samplePlatform true true false)
           "g.crt" "g.key" globalCmds sampleLoops sampleManager _ Hin).
Defined.

(** ** Constructed and registered instances *)

Lemma count_servers_passes P gc gk loops ls : forall i,
  forallb (fun l => passes (linuxVerdict P gc gk 0 l)) ls = true ->
  count isNewHttpServer (linuxPasses P gc gk i loops ls) =
  length loops * length ls.
Proof.
  induction loops as [|loop loops IH]; intros i H; cbn [linuxPasses length].
  - reflexivity.
  - rewrite count_app, (IH (S i) H).
    rewrite (linuxTraces_pass P gc gk i loop ls
               (linux_pass_later _ _ _ i _ H)).
    rewrite (count_flat_map_const isNewHttpServer _ 1)
      by (intros l _; apply pair_servers).
    lia.
Qed.

Lemma other_server_count P gc gk l :
  count isNewHttpServer (otherTrace P gc gk l) = 1.
Proof.
  unfold otherTrace. now destruct (missingTlsMaterial P gc gk l).
Qed.

(** X11.  Every [HttpServer] a run constructs ends up in [servers_],
    except the one under construction when the run exits for missing TLS
    material: the number of constructions is the number of instances
    realized, plus one exactly when the run ends in [exit]. *)
Theorem constructed_servers_are_registered P gc gk cmds loops m :
  count isNewHttpServer (trace (createListeners P gc gk cmds loops m)) =
  length (realized m (createListeners P gc gk cmds loops m)) +
  oneIf (endedInExit (outcome (createListeners P gc gk cmds loops m))).
Proof.
  by_cases P gc gk cmds loops m HL; cbn [trace outcome fst snd];
    rewrite ?realized_same, ?realized_with_servers, ?realized_with_thread;
    rewrite ?count_cons; cbn [oneIf isNewHttpServer endedInExit length].
  - reflexivity.
  - rewrite (count_servers_passes P gc gk loops _ 0
               (allPass_linux0 P gc gk _ HL Hpass)).
    unfold topology. rewrite HL, length_grid. lia.
  - pose proof (allPass_linux0 P gc gk _ HL Hpre) as H0.
    destruct (failing_pass_counts P gc gk loop bad f
                (verdict_linux0 P gc gk bad f HL Hbad))
      as (_ & _ & _ & _ & E).
    cbn [endedInExit] in E.
    rewrite count_app, E, (linuxTraces_pass P gc gk 0 loop pre H0).
    rewrite (count_flat_map_const isNewHttpServer _ 1)
      by (intros l _; apply pair_servers).
    rewrite length_map. lia.
  - reflexivity.
  - rewrite (count_flat_map_const isNewHttpServer _ 1)
      by (intros l _; apply other_server_count).
    unfold topology. rewrite HL, length_map. lia.
  - rewrite count_app, other_server_count.
    rewrite (count_flat_map_const isNewHttpServer _ 1)
      by (intros l _; apply other_server_count).
    rewrite length_map.
    apply verdict_kinds in Hbad as [[-> _] | (H & _)]; [cbn; lia|congruence].
Qed.

(** ** Introspection after a run *)

Lemma map_grid {A B C D} (g : C -> D) (f : A -> B -> C) xs ys :
  map g (flat_map (fun x => map (f x) ys) xs) =
  flat_map (fun x => map (fun y => g (f x y)) ys) xs.
Proof.
  induction xs as [|x xs IH]; cbn [flat_map map]; [reflexivity|].
  now rewrite map_app, map_map, IH.
Qed.

(** X12.  After a run in which no listener fails, [getListeners] reports
    what it reported before, followed under the [__linux__] branch by the
    addresses of the declared listeners once per worker loop, loop by
    loop, and under the other branch by those addresses once. *)
Theorem getListeners_after_run P gc gk cmds loops m :
  noneFails P gc gk (listeners_ m) = true ->
  getListeners (final (createListeners P gc gk cmds loops m)) =
  getListeners m ++
  if is_linux P
  then flat_map (fun _ => map (listenAddressOf P) (listeners_ m)) loops
  else map (listenAddressOf P) (listeners_ m).
Proof.
  intros H. apply noneFails_allPass in H. unfold getListeners.
  destruct (is_linux P) eqn:HL.
  - rewrite (createListeners_linux_pass P gc gk cmds loops m HL H).
    cbn [final fst snd with_servers servers_]. rewrite map_app. f_equal.
    unfold topology. rewrite HL.
    now rewrite (map_grid srv_address
                   (fun loop l => linuxInstance P m gc gk cmds loop l)).
  - destruct (listeners_ m) as [|l ls] eqn:E.
    + rewrite (createListeners_other_nil P gc gk cmds loops m HL E).
      cbn. now rewrite app_nil_r.
    + rewrite <- E in *.
      rewrite (createListeners_other_pass P gc gk cmds loops m HL);
        [|congruence|exact H].
      cbn [final fst snd with_servers with_thread servers_].
      rewrite map_app. f_equal. unfold topology. rewrite HL.
      now rewrite map_map.
Qed.

(** Three listeners over two loops: six addresses. *)
Lemma getListeners_after_run_witness :
  noneFails (samplePlatform true true false) "g.crt" "g.key"
    (listeners_ sampleManager) = true /\
  getListeners
    (final (createListeners (samplePlatform true true false) "g.crt"
              "g.key" globalCmds sampleLoops sampleManager)) =
  getListeners sampleManager ++
  flat_map (fun _ => map (listenAddressOf (samplePlatform true true false))
                       (listeners_ sampleManager)) sampleLoops.
Proof.
  split; [reflexivity|].
  exact (getListeners_after_run (samplePlatform true true false) "g.crt"
           "g.key" globalCmds sampleLoops sampleManager eq_refl).
Defined.

(** ** Running twice *)

Lemma other_thread_after_run P gc gk cmds loops m :
  is_linux P = false ->
  listeners_ m <> [] ->
  listeningThread_ (final (createListeners P gc gk cmds loops m)) =
  Some (listeningThreadOf P).
Proof.
  intros HL Hne.
  destruct (other_cases P gc gk cmds loops m HL)
    as [[Hs _] | [(_ & _ & ->) | (pre & bad & post & f & _ & _ & _ & ->)]];
    [congruence | reflexivity | reflexivity].
Qed.

Lemma pass_final P gc gk cmds loops m :
  allPass P gc gk (listeners_ m) = true ->
  outcome (createListeners P gc gk cmds loops m) = Ok tt /\
  servers_ (final (createListeners P gc gk cmds loops m)) =
  servers_ m ++ topology P m gc gk cmds loops /\
  listeners_ (final (createListeners P gc gk cmds loops m)) = listeners_ m /\
  callbacksOf (final (createListeners P gc gk cmds loops m)) = callbacksOf m.
Proof.
  intros H. destruct (is_linux P) eqn:HL.
  - rewrite (createListeners_linux_pass P gc gk cmds loops m HL H).
    repeat split.
  - destruct (listeners_ m) as [|l ls] eqn:E.
    + rewrite (createListeners_other_nil P gc gk cmds loops m HL E).
      unfold topology. rewrite HL, E. cbn. rewrite app_nil_r. auto.
    + rewrite <- E in *.
      rewrite (createListeners_other_pass P gc gk cmds loops m HL);
        [|congruence|exact H].
      repeat split.
Qed.

Lemma topology_depends P m m' gc gk cmds loops :
  listeners_ m' = listeners_ m ->
  callbacksOf m' = callbacksOf m ->
  topology P m' gc gk cmds loops = topology P m gc gk cmds loops.
Proof.
  unfold topology, callbacksOf, linuxInstance. intros -> [= -> -> ->].
  reflexivity.
Qed.

(** X13.  [createListeners] does not guard against a second call.  When
    no listener fails in either call, the second call, made on the
    platform [P'] it finds, returns as well and appends a whole topology
    of its own after the one of the first call, which stays.  Under the
    other branch with a listener declared, [listeningThread_] then holds
    the thread of the second call only: the instances of the second call
    sit on its loop, those of the first call on the loop of the thread of
    the first call, which the manager has dropped. *)
Theorem createListeners_twice_duplicates P P' gc gk cmds loops m :
  noneFails P gc gk (listeners_ m) = true ->
  noneFails P' gc gk (listeners_ m) = true ->
  outcome (createListeners P' gc gk cmds loops
             (final (createListeners P gc gk cmds loops m))) = Ok tt /\
  servers_ (final (createListeners P' gc gk cmds loops
                     (final (createListeners P gc gk cmds loops m)))) =
  servers_ m ++ topology P m gc gk cmds loops ++
  topology P' m gc gk cmds loops /\
  (is_linux P = false -> is_linux P' = false -> listeners_ m <> [] ->
   listeningThread_
     (final (createListeners P' gc gk cmds loops
               (final (createListeners P gc gk cmds loops m)))) =
   Some (listeningThreadOf P') /\
   (forall s, In s (topology P m gc gk cmds loops) ->
              srv_loop s = listeningLoop P) /\
   (forall s, In s (topology P' m gc gk cmds loops) ->
              srv_loop s = listeningLoop P')).
Proof.
  intros H H'. apply noneFails_allPass in H. apply noneFails_allPass in H'.
  destruct (pass_final P gc gk cmds loops m H) as (_ & Hs & Hl & Hc).
  assert (H2 : allPass P' gc gk
                 (listeners_ (final (createListeners P gc gk cmds loops m)))
               = true) by now rewrite Hl.
  destruct (pass_final P' gc gk cmds loops _ H2) as (Ho & Hs' & _ & _).
  split; [exact Ho|]. split.
  - rewrite Hs', Hs, (topology_depends P' m _ gc gk cmds loops Hl Hc).
    now rewrite <- app_assoc.
  - intros HL HL' Hne. split; [|split].
    + apply other_thread_after_run; [exact HL' | now rewrite Hl].
    + unfold topology. rewrite HL. intros s Hs0.
      apply in_map_iff in Hs0 as (l & <- & _). reflexivity.
    + unfold topology. rewrite HL'. intros s Hs0.
      apply in_map_iff in Hs0 as (l & <- & _). reflexivity.
Qed.

(** Two listeners under the other branch, run twice: four instances, two
    on loop 200 and two on loop 201, and the thread of loop 201 kept. *)
Lemma createListeners_twice_duplicates_witness :
  noneFails (samplePlatform false true false) "g.crt" "g.key"
    (listeners_ mixedTlsManager) = true /\
  noneFails laterPlatform "g.crt" "g.key" (listeners_ mixedTlsManager) = true
  /\
  map srv_loop
    (servers_
       (final (createListeners laterPlatform "g.crt" "g.key" globalCmds
                 sampleLoops
                 (final (createListeners (samplePlatform false true false)
                           "g.crt" "g.key" globalCmds sampleLoops
                           mixedTlsManager))))) = [200; 200; 201; 201] /\
  listeningThread_
    (final (createListeners laterPlatform "g.crt" "g.key" globalCmds
              sampleLoops
              (final (createListeners (samplePlatform false true false)
                        "g.crt" "g.key" globalCmds sampleLoops
                        mixedTlsManager)))) =
  Some (listeningThreadOf laterPlatform).
Proof.
  refine (conj eq_refl (conj eq_refl _)).
  destruct (createListeners_twice_duplicates (samplePlatform false true false)
              laterPlatform "g.crt" "g.key" globalCmds sampleLoops
              mixedTlsManager eq_refl eq_refl) as (_ & Hs & Ht).
  split.
  - rewrite Hs. reflexivity.
  - assert (Hne : listeners_ mixedTlsManager <> []) by discriminate.
    exact (proj1 (Ht eq_refl eq_refl Hne)).
Defined.

(** ** Callbacks and the order of calls *)

Lemma setCallbacks_run cb1 cb2 cb3 m :
  setCallbacks cb1 cb2 cb3 m =
  (Ok tt,
   mkListenerManager (listeners_ m) (servers_ m) (listeningThread_ m)
     cb1 cb2 cb3,
   []).
Proof. reflexivity. Qed.

(** X14.  The setters overwrite: whatever callbacks were set before, the
    instances a run of the [__linux__] branch realizes carry the three
    callbacks set last before it, an empty one being installed as none.
    Setting callbacks touches neither the declared listeners nor any
    instance realized earlier, so it is lost on those. *)
Theorem callbacks_set_last_are_installed P gc gk cmds loops m cb1 cb2 cb3 :
  is_linux P = true ->
  listeners_ (final (setCallbacks cb1 cb2 cb3 m)) = listeners_ m /\
  servers_ (final (setCallbacks cb1 cb2 cb3 m)) = servers_ m /\
  forall s,
    In s (realized (final (setCallbacks cb1 cb2 cb3 m))
            (createListeners P gc gk cmds loops
               (final (setCallbacks cb1 cb2 cb3 m)))) ->
    installedOn s = (cb1, cb2, cb3).
Proof.
  intros HL. rewrite setCallbacks_run. cbn [final fst snd].
  split; [reflexivity|]. split; [reflexivity|].
  intros s Hs.
  destruct (linux_callbacks P gc gk cmds loops _ s HL Hs) as (E1 & E2 & E3).
  unfold installedOn. now rewrite E1, E2, E3.
Qed.

(** Callbacks 7 and 9 are replaced before the run, the second is cleared. *)
Lemma callbacks_set_last_are_installed_witness :
  is_linux (samplePlatform true true false) = true /\
  map installedOn
    (realized (final (setCallbacks (Some 1) None (Some 3) sampleManager))
       (createListeners (samplePlatform true true false) "g.crt" "g.key"
          globalCmds [5]
          (final (setCallbacks (Some 1) None (Some 3) sampleManager)))) =
  [(Some 1, None, Some 3); (Some 1, None, Some 3); (Some 1, None, Some 3)] /\
  forall s,
    In s (realized (final (setCallbacks (Some 1) None (Some 3) sampleManager))
            (createListeners (samplePlatform true true false) "g.crt" "g.key"
               globalCmds [5]
               (final (setCallbacks (Some 1) None (Some 3) sampleManager)))) ->
    installedOn s = (Some 1, None, Some 3).
Proof.
  refine (conj eq_refl (conj eq_refl _)).
  exact (proj2 (proj2 (callbacks_set_last_are_installed
                         (samplePlatform true true false) "g.crt" "g.key"
                         globalCmds [5] sampleManager (Some 1) None (Some 3)
                         eq_refl))).
Defined.

(** ** Stopping what a run built *)

(** X15.  Stopping what [createListeners] built from a manager without a
    listening thread: under the [__linux__] branch [stopListening] only
    stops the instances and returns, whichever thread calls it and
    whatever the build, because that branch never creates the thread;
    under the other branch with a listener declared it stops the
    instances, then quits the loop of the thread the run started and waits
    for it, except that in a build that keeps the [assert] a call from
    that very thread ends the process at the assertion, after the
    stops. *)
Theorem stop_after_createListeners P ndebug gc gk cmds loops m :
  listeningThread_ m = None ->
  (is_linux P = true ->
   stopListening P ndebug (final (createListeners P gc gk cmds loops m)) =
   (Ok tt, final (createListeners P gc gk cmds loops m),
    map ServerStop
      (servers_ (final (createListeners P gc gk cmds loops m))))) /\
  (is_linux P = false ->
   listeners_ m <> [] ->
   stopListening P ndebug (final (createListeners P gc gk cmds loops m)) =
   if negb ndebug && isInLoopThread P (listeningLoop P)
   then (Fatal AssertFailed, final (createListeners P gc gk cmds loops m),
         map ServerStop
           (servers_ (final (createListeners P gc gk cmds loops m))))
   else (Ok tt, final (createListeners P gc gk cmds loops m),
         map ServerStop
           (servers_ (final (createListeners P gc gk cmds loops m))) ++
         [LoopQuit (listeningLoop P); ThreadWait (listeningThreadOf P)])).
Proof.
  intros Hn. split.
  - intros HL. rewrite stopListening_run.
    now rewrite (linux_thread_kept P gc gk cmds loops m HL), Hn.
  - intros HL Hne. rewrite stopListening_run.
    now rewrite (other_thread_after_run P gc gk cmds loops m HL Hne).
Qed.

(** A fresh manager with two listeners on a platform of the other branch,
    stopped from the listening thread itself in a build with [NDEBUG]:
    the stops, then quit and wait. *)
Lemma stop_after_createListeners_witness :
  listeningThread_ mixedTlsManager = None /\
  is_linux selfStopPlatform = false /\
  listeners_ mixedTlsManager <> [] /\
  isInLoopThread selfStopPlatform (listeningLoop selfStopPlatform) = true /\
  trace (stopListening selfStopPlatform true
           (final (createListeners selfStopPlatform "g.crt" "g.key"
                     globalCmds sampleLoops mixedTlsManager))) =
  map ServerStop
    (servers_ (final (createListeners selfStopPlatform "g.crt" "g.key"
                        globalCmds sampleLoops mixedTlsManager))) ++
  [LoopQuit 200; ThreadWait (listeningThreadOf selfStopPlatform)] /\
  outcome (stopListening selfStopPlatform false
             (final (createListeners selfStopPlatform "g.crt" "g.key"
                       globalCmds sampleLoops mixedTlsManager))) =
  Fatal AssertFailed.
Proof.
  assert (Hne : listeners_ mixedTlsManager <> []) by discriminate.
  refine (conj eq_refl (conj eq_refl (conj Hne (conj eq_refl _)))).
  split.
  - rewrite (proj2 (stop_after_createListeners selfStopPlatform true "g.crt"
                      "g.key" globalCmds sampleLoops mixedTlsManager eq_refl)
               eq_refl Hne).
    reflexivity.
  - rewrite (proj2 (stop_after_createListeners selfStopPlatform false "g.crt"
                      "g.key" globalCmds sampleLoops mixedTlsManager eq_refl)
               eq_refl Hne).
    reflexivity.
Defined.

(** ** Starting and reloading *)

Lemma length_filter_grid {A B C} (q : C -> bool) (f : A -> B -> C)
  (xs : list A) (ys : list B) c :
  (forall x, length (filter q (map (f x) ys)) = c) ->
  length (filter q (flat_map (fun x => map (f x) ys) xs)) = length xs * c.
Proof.
  intros H. induction xs as [|x xs IH]; cbn [flat_map length];
    [reflexivity|].
  rewrite filter_app, length_app, H, IH. lia.
Qed.

Lemma withoutTls_linux P m gc gk cmds loop ls :
  length (filter withoutTls (map (linuxInstance P m gc gk cmds loop) ls)) =
  length (filter (fun l => negb (wantsTls P l)) ls).
Proof.
  induction ls as [|l ls IH]; cbn [map filter]; [reflexivity|].
  unfold withoutTls at 1, tlsEnabled; cbn. unfold linuxPolicy.
  destruct (wantsTls P l); cbn; now rewrite IH.
Qed.

Lemma withoutTls_other P gc gk cmds loops ls :
  length (filter withoutTls (map (otherInstance P gc gk cmds loops) ls)) =
  length (filter (fun l => negb (wantsTls P l)) ls).
Proof.
  induction ls as [|l ls IH]; cbn [map filter]; [reflexivity|].
  unfold withoutTls at 1, tlsEnabled; cbn. unfold otherPolicy.
  destruct (wantsTls P l); cbn; now rewrite IH.
Qed.

(** X16.  After a run in which no listener fails, on a manager that had
    realized nothing, [startListening] starts exactly the instances of the
    topology, in the order of their construction, and [reloadSSLFiles]
    asks every one of them to reload, the instances without TLS included:
    one such request per pass for each listener that does not get TLS. *)
Theorem lifecycle_calls_after_run P gc gk cmds loops m :
  noneFails P gc gk (listeners_ m) = true ->
  servers_ m = [] ->
  map callTarget
    (startListening (final (createListeners P gc gk cmds loops m))) =
  topology P m gc gk cmds loops /\
  map callTarget
    (reloadSSLFiles (final (createListeners P gc gk cmds loops m))) =
  topology P m gc gk cmds loops /\
  length (filter withoutTls
            (map callTarget
               (reloadSSLFiles
                  (final (createListeners P gc gk cmds loops m))))) =
  passesOver P loops *
  length (filter (fun l => negb (wantsTls P l)) (listeners_ m)).
Proof.
  intros H Hs. apply noneFails_allPass in H.
  destruct (pass_final P gc gk cmds loops m H) as (_ & E & _ & _).
  unfold startListening, reloadSSLFiles. rewrite !map_map. cbn [callTarget].
  rewrite !map_id, E, Hs. cbn [app].
  split; [reflexivity|]. split; [reflexivity|].
  unfold topology, passesOver. destruct (is_linux P).
  - apply length_filter_grid. intros loop. apply withoutTls_linux.
  - rewrite withoutTls_other. lia.
Qed.

(** Two loops; the plain and the IPv6 listener get no TLS: four of the
    six reload requests go to instances without TLS. *)
Lemma lifecycle_calls_after_run_witness :
  noneFails (samplePlatform true true false) "g.crt" "g.key"
    (listeners_ sampleManager) = true /\
  servers_ sampleManager = [] /\
  length (reloadSSLFiles
            (final (createListeners (samplePlatform true true false) "g.crt"
                      "g.key" globalCmds sampleLoops sampleManager))) = 6 /\
  length (filter withoutTls
            (map callTarget
               (reloadSSLFiles
                  (final (createListeners (samplePlatform true true false)
                            "g.crt" "g.key" globalCmds sampleLoops
                            sampleManager))))) =
  passesOver (samplePlatform true true false) sampleLoops *
  length (filter (fun l => negb (wantsTls (samplePlatform true true false) l))
            (listeners_ sampleManager)).
Proof.
  refine (conj eq_refl (conj eq_refl (conj eq_refl _))).
  exact (proj2 (proj2 (lifecycle_calls_after_run
                         (samplePlatform true true false) "g.crt" "g.key"
                         globalCmds sampleLoops sampleManager
                         eq_refl eq_refl))).
Defined.
